(** * Drash [HttpRequestService]: request hydration, content negotiation and
      body decoding

    A shallow embedding of [src/services/http_request_service.ts].

    - JavaScript values are the inductive [JsVal]; [undefined] is the [None]
      of [option JsVal].
    - A thrown exception is the [Throws] case of [Result].
    - The request object, its single-read body stream and the caller's
      [options] object are mutated by the service; they live in a [Store]
      that every [async] method threads through ([M]).
    - [JSON.parse], [TextDecoder.decode], [StringService.parseQueryParamsString]
      and the multipart reader of Deno's standard library are not part of this
      file of the repository; they are the fields of a [Runtime] record that
      the model takes as an argument. *)

From Stdlib Require Import String Ascii ZArith List Bool.
From Stdlib Require Strings.Byte.
From stdpp Require Import base option gmap strings.

Import ListNotations.
Set Warnings "-register-all".
Local Open Scope string_scope.
Local Open Scope Z_scope.

(** ** Strings as JavaScript uses them *)

Module Str.

(** [s.indexOf(c)] for a one-character needle: the position of the first
    occurrence, [-1] when there is none. *)
Fixpoint indexOf (c : ascii) (s : string) : Z :=
  match s with
  | EmptyString => -1
  | String a r =>
      if Ascii.eqb a c then 0
      else let i := indexOf c r in
           if i =? -1 then -1 else i + 1
  end.

(** [s.split(c)] for a one-character separator. *)
Fixpoint split (c : ascii) (s : string) : list string :=
  match s with
  | EmptyString => [EmptyString]
  | String a r =>
      if Ascii.eqb a c then EmptyString :: split c r
      else match split c r with
           | h :: t => String a h :: t
           | [] => [String a EmptyString]
           end
  end.

(** [s.includes(needle)]. *)
Fixpoint includes (needle s : string) : bool :=
  String.prefix needle s
  || match s with
     | EmptyString => false
     | String _ r => includes needle r
     end.

(** [s.replace(/c/g, "")]: every occurrence of the character removed. *)
Fixpoint remove_all (c : ascii) (s : string) : string :=
  match s with
  | EmptyString => EmptyString
  | String a r =>
      if Ascii.eqb a c then remove_all c r else String a (remove_all c r)
  end.

Definition code (a : ascii) : Z := Z.of_nat (nat_of_ascii a).

Definition lower_char (a : ascii) : ascii :=
  if (65 <=? code a) && (code a <=? 90)
  then ascii_of_nat (nat_of_ascii a + 32)
  else a.

(** ASCII lower-casing, as the [Headers] class normalises header names. *)
Fixpoint toLowerCase (s : string) : string :=
  match s with
  | EmptyString => EmptyString
  | String a r => String (lower_char a) (toLowerCase r)
  end.

(** The characters of the regular expression class [\s] and of
    [StrWhiteSpaceChar] among the code units below 256: TAB, LF, VT, FF,
    CR, SP and NBSP. *)
Definition is_space (a : ascii) : bool :=
  let n := code a in
  ((9 <=? n) && (n <=? 13)) || (n =? 32) || (n =? 160).

Fixpoint trimStart (s : string) : string :=
  match s with
  | String a r => if is_space a then trimStart r else s
  | EmptyString => EmptyString
  end.

(** The longest prefix without a white-space character: the greedy
    match of [[^\s]*]. *)
Fixpoint non_space_run (s : string) : string :=
  match s with
  | String a r => if is_space a then EmptyString else String a (non_space_run r)
  | EmptyString => EmptyString
  end.

(** [s.trimEnd()] and [s.trim()] *)
Fixpoint trimEnd (s : string) : string :=
  match s with
  | String a r =>
      match trimEnd r with
      | EmptyString => if is_space a then EmptyString else String a EmptyString
      | kept => String a kept
      end
  | EmptyString => EmptyString
  end.

Definition trim (s : string) : string := trimStart (trimEnd s).

(** Every character of [s] passes the test. *)
Fixpoint all (test : ascii -> bool) (s : string) : bool :=
  match s with
  | String a r => test a && all test r
  | EmptyString => true
  end.

(** [c] occurs in [s]. *)
Fixpoint has (c : ascii) (s : string) : Prop :=
  match s with
  | EmptyString => False
  | String a r => a = c \/ has c r
  end.

End Str.

(** ** JavaScript values, truthiness, exceptions *)

(** The values a decoded body is made of: the JSON values, with integral
    numbers. *)
Inductive JsVal : Type :=
| JNull
| JBool (b : bool)
| JNum (n : Z)
| JStr (s : string)
| JArr (items : list JsVal)
| JObj (fields : gmap string JsVal).

(** [ToBoolean] on a value that may be [undefined]. *)
Definition truthy (v : option JsVal) : bool :=
  match v with
  | None | Some JNull => false
  | Some (JBool b) => b
  | Some (JNum n) => negb (n =? 0)
  | Some (JStr s) => negb (String.eqb s "")
  | Some (JArr _) | Some (JObj _) => true
  end.

(** [ToBoolean] on a string-or-null, the result type of [Headers.get]. *)
Definition truthy_str (v : option string) : bool :=
  match v with
  | None => false
  | Some s => negb (String.eqb s "")
  end.

Definition is_mapping (v : JsVal) : bool :=
  match v with
  | JObj _ => true
  | _ => false
  end.

Inductive Error : Type :=
| TypeError (msg : string)
| SyntaxError (msg : string)
| IOError (msg : string)
(** [new Error(prefix + error.stack)] *)
| WrappedError (prefix : string) (cause : Error).

Inductive Result (A : Type) : Type :=
| Returns (a : A)
| Throws (e : Error).
Arguments Returns {A} a.
Arguments Throws {A} e.

(** The settled state of the promise an [async] method hands back. *)
Inductive Promise (A : Type) : Type :=
| Fulfilled (a : A)
| Rejected (e : Error).
Arguments Fulfilled {A} a.
Arguments Rejected {A} e.

(** [ToBoolean] of a promise that has not been awaited: a promise is an
    object, and every object is truthy. *)
Definition truthy_promise {A : Type} (p : Promise A) : bool := true.

(** ** [parseInt] with no radix argument

    The result is [None] for [NaN]. The mathematical integer is kept exact;
    the rounding to a Number keeps its sign and whether it is zero, which is
    all that [hasBody] looks at. *)

Module Number.

Definition digit_value (a : ascii) : option Z :=
  let n := Str.code a in
  if (48 <=? n) && (n <=? 57) then Some (n - 48)
  else if (97 <=? n) && (n <=? 122) then Some (n - 87)
  else if (65 <=? n) && (n <=? 90) then Some (n - 55)
  else None.

Definition radix_digit (R : Z) (a : ascii) : option Z :=
  match digit_value a with
  | Some d => if d <? R then Some d else None
  | None => None
  end.

(** Value of the longest prefix of radix-[R] digits; [acc] is [None] as
    long as no digit was read. *)
Fixpoint digits (R : Z) (s : string) (acc : option Z) : option Z :=
  match s with
  | EmptyString => acc
  | String a r =>
      match radix_digit R a with
      | Some d =>
          digits R r (Some (match acc with Some v => v * R + d | None => d end))
      | None => acc
      end
  end.

Definition strip_sign (s : string) : Z * string :=
  match s with
  | String "-" r => (-1, r)
  | String "+" r => (1, r)
  | _ => (1, s)
  end.

Definition strip_hex_prefix (s : string) : Z * string :=
  match s with
  | String "0" (String "x" r) => (16, r)
  | String "0" (String "X" r) => (16, r)
  | _ => (10, s)
  end.

Definition parseInt (input : string) : option Z :=
  let '(sign, s) := strip_sign (Str.trimStart input) in
  let '(R, s) := strip_hex_prefix s in
  match digits R s None with
  | None => None
  | Some m => Some (sign * m)
  end.

(** [ToString] of a string-or-null argument. *)
Definition ToString (v : option string) : string :=
  match v with
  | Some s => s
  | None => "null"
  end.

(** [x > 0], false for [NaN]. *)
Definition gt0 (x : option Z) : bool :=
  match x with
  | Some n => 0 <? n
  | None => false
  end.

End Number.


(** ** The data model *)

(** The state of a [Headers] object: one value per header name, the names
    lower-cased, so that lookups do not depend on the case of the name.
    [set] is the change a call of [headers.set(name, value)] makes when the
    class accepts its arguments: the value is stored trimmed. The class
    throws a [TypeError] on a name that is not a token and on a value with
    a character that a header may not hold; [legal_name], [legal_value] and
    [legal] say which arguments every version of the class accepts, and
    the properties of what the service does with headers it is given have
    them as hypotheses. Between them and [set], a value read back is the
    value given without the blanks and tabs around it. *)
Module Headers.

Definition get (h : gmap string string) (name : string) : option string :=
  h !! Str.toLowerCase name.

Definition set (h : gmap string string) (name value : string)
  : gmap string string :=
  <[Str.toLowerCase name := Str.trim value]> h.

(** The characters of a token: letters, digits and the punctuation the
    grammar of header names allows. *)
Definition token_char (a : ascii) : bool :=
  let n := Str.code a in
  ((97 <=? n) && (n <=? 122)) || ((65 <=? n) && (n <=? 90))
  || ((48 <=? n) && (n <=? 57))
  || negb (Str.indexOf a "!#$%&'*+-.^_`|~" =? -1).

Definition legal_name (name : string) : bool :=
  negb (String.eqb name "") && Str.all token_char name.

(** Tab, the printing characters of ASCII and the characters from 128 on,
    the no-break space apart. *)
Definition value_char (a : ascii) : bool :=
  let n := Str.code a in
  (n =? 9) || ((32 <=? n) && (n <=? 126)) || ((128 <=? n) && negb (n =? 160)).

Definition legal_value (value : string) : bool := Str.all value_char value.

(** The entries of an [options.headers] that [set] accepts one and all;
    no [options.headers] is as good. *)
Definition legal (extra : option (list (string * string))) : bool :=
  match extra with
  | Some entries =>
      forallb (fun kv => legal_name kv.1 && legal_value kv.2) entries
  | None => true
  end.

End Headers.

(** Which decoder of the service read from the body stream. *)
Inductive Decoder : Type :=
| MultipartFormData
| Json
| FormUrlEncoded.

(** [request.body]: a reader that hands out its bytes once. [reads] is a
    ghost log of the decoders that read from it, oldest first. *)
Record Stream : Type := {
  pending : list Byte.byte;
  reads : list Decoder
}.

(** [interface ParsedBody] *)
Record ParsedBody : Type := {
  content_type : option string;
  data : option JsVal
}.

(** The request object. The first three fields come from the server; the
    others are attached later and are [None] ([undefined]) until then.
    [parsed_body] is a field that the service reads and never writes: an
    object when a caller has set it. [bound_body] is the [pb] captured by
    the closures [getBodyFile] and [getBodyParam] once [hydrate] has
    attached them. *)
Record Request : Type := {
  url : string;
  headers : gmap string string;
  body : Stream;
  url_path : option string;
  url_query_params : option (gmap string string);
  response_content_type : option JsVal;
  parsed_body : option (gmap string JsVal);
  bound_body : option ParsedBody
}.

(** [options.memory_allocation]; [multipart_form_data] is an integral
    Number of megabytes ([None]: not set). Multiplying a Number by 2^20 is
    exact, so the product is the integer product. *)
Record MemoryAllocation : Type := {
  multipart_form_data : option Z;
  ma_other : gmap string JsVal
}.

(** The [options] object; [o_headers] lists the own properties of
    [options.headers] in enumeration order, [o_other] holds every property
    the service never touches. *)
Record Options : Type := {
  o_headers : option (list (string * string));
  default_response_content_type : option string;
  memory_allocation : option MemoryAllocation;
  o_other : gmap string JsVal
}.

(** The object [{}] that [parseBody] takes when it is called without
    options. *)
Definition empty_options : Options :=
  {| o_headers := None; default_response_content_type := None;
     memory_allocation := None; o_other := ∅ |}.

(** A request as the server hands it over. *)
Definition incoming (u : string) (h : gmap string string) (b : list Byte.byte)
  : Request :=
  {| url := u; headers := h; body := {| pending := b; reads := [] |};
     url_path := None; url_query_params := None;
     response_content_type := None; parsed_body := None;
     bound_body := None |}.

Definition with_headers (h : gmap string string) (r : Request) : Request :=
  {| url := url r; headers := h; body := body r; url_path := url_path r;
     url_query_params := url_query_params r;
     response_content_type := response_content_type r;
     parsed_body := parsed_body r; bound_body := bound_body r |}.

Definition with_body (b : Stream) (r : Request) : Request :=
  {| url := url r; headers := headers r; body := b; url_path := url_path r;
     url_query_params := url_query_params r;
     response_content_type := response_content_type r;
     parsed_body := parsed_body r; bound_body := bound_body r |}.

Definition with_url_path (p : string) (r : Request) : Request :=
  {| url := url r; headers := headers r; body := body r; url_path := Some p;
     url_query_params := url_query_params r;
     response_content_type := response_content_type r;
     parsed_body := parsed_body r; bound_body := bound_body r |}.

Definition with_url_query_params (q : gmap string string) (r : Request)
  : Request :=
  {| url := url r; headers := headers r; body := body r;
     url_path := url_path r; url_query_params := Some q;
     response_content_type := response_content_type r;
     parsed_body := parsed_body r; bound_body := bound_body r |}.

Definition with_response_content_type (t : option JsVal) (r : Request)
  : Request :=
  {| url := url r; headers := headers r; body := body r;
     url_path := url_path r; url_query_params := url_query_params r;
     response_content_type := t;
     parsed_body := parsed_body r; bound_body := bound_body r |}.

Definition with_bound_body (pb : ParsedBody) (r : Request) : Request :=
  {| url := url r; headers := headers r; body := body r;
     url_path := url_path r; url_query_params := url_query_params r;
     response_content_type := response_content_type r;
     parsed_body := parsed_body r; bound_body := Some pb |}.

Definition with_memory_allocation (ma : MemoryAllocation) (o : Options)
  : Options :=
  {| o_headers := o_headers o;
     default_response_content_type := default_response_content_type o;
     memory_allocation := Some ma; o_other := o_other o |}.

(** ** What the service calls but does not define *)

Record Runtime : Type := {
  (** [decoder.decode(bytes)] *)
  decode : list Byte.byte -> string;
  (** [JSON.parse(text)] *)
  JSON_parse : string -> Result JsVal;
  (** [StringService.parseQueryParamsString(text)]; the argument is [None]
      for [null]. *)
  parseQueryParamsString : option string -> Result (gmap string string);
  (** [new MultipartReader(body, boundary).readForm(maxMemory)] on the bytes
      the stream still holds: the form, and the bytes left unread. *)
  readForm : list Byte.byte -> string -> option Z
             -> Result (gmap string JsVal) * list Byte.byte;
  (** Whether a value inherits a property of that name from its prototype
      chain ([Object.prototype] and the like). *)
  inherits : JsVal -> string -> bool
}.

(** ** Mutable state and exceptions *)

Record Store : Type := {
  st_request : Request;
  st_options : Options
}.

Definition M (A : Type) : Type := Store -> Result A * Store.

Definition ret {A : Type} (a : A) : M A := fun s => (Returns a, s).

Definition throw {A : Type} (e : Error) : M A := fun s => (Throws e, s).

Definition bind {A B : Type} (m : M A) (k : A -> M B) : M B :=
  fun s =>
    match m s with
    | (Returns a, s') => k a s'
    | (Throws e, s') => (Throws e, s')
    end.

(** [try { m } catch (error) { h error }] *)
Definition try_catch {A : Type} (m : M A) (h : Error -> M A) : M A :=
  fun s =>
    match m s with
    | (Returns a, s') => (Returns a, s')
    | (Throws e, s') => h e s'
    end.

Definition lift {A : Type} (r : Result A) : M A := fun s => (r, s).

Definition get_request : M Request := fun s => (Returns (st_request s), s).

Definition get_options : M Options := fun s => (Returns (st_options s), s).

Definition update_request (f : Request -> Request) : M unit :=
  fun s =>
    (Returns tt, {| st_request := f (st_request s); st_options := st_options s |}).

Definition put_options (o : Options) : M unit :=
  fun s => (Returns tt, {| st_request := st_request s; st_options := o |}).

Notation "x <- m ;; k" := (bind m (fun x => k))
  (at level 100, m at next level, right associativity).
Notation "m ;;; k" := (bind m (fun _ => k))
  (at level 100, right associativity).

(** ** Property access *)

Fixpoint all_decimal (s : string) : bool :=
  match s with
  | EmptyString => true
  | String a r =>
      (48 <=? Str.code a) && (Str.code a <=? 57) && all_decimal r
  end.

(** The array index a property name denotes: a decimal numeral with no
    leading zero. *)
Definition canonical_index (k : string) : option nat :=
  match k with
  | EmptyString => None
  | String "0" EmptyString => Some 0%nat
  | String "0" _ => None
  | _ =>
      if all_decimal k
      then Z.to_nat <$> Number.digits 10 k None
      else None
  end.

Fixpoint string_nth (s : string) (i : nat) : option ascii :=
  match s, i with
  | EmptyString, _ => None
  | String a _, O => Some a
  | String _ r, S j => string_nth r j
  end.

(** The own property [v[k]] of a value that is neither [undefined] nor
    [null]. *)
Definition own_property (v : JsVal) (k : string) : option JsVal :=
  match v with
  | JObj fields => fields !! k
  | JArr items =>
      if String.eqb k "length" then Some (JNum (Z.of_nat (length items)))
      else i ← canonical_index k; items !! i
  | JStr s =>
      if String.eqb k "length" then Some (JNum (Z.of_nat (String.length s)))
      else i ← canonical_index k;
           (fun a => JStr (String a EmptyString)) <$> string_nth s i
  | JNull | JBool _ | JNum _ => None
  end.

(** What reading a property yields: [undefined], the value stored under
    the name, or a member of a built-in prototype (a method such as
    [toString]), which the model does not look into. *)
Inductive Property : Type :=
| Undefined
| Own (v : JsVal)
| Inherited (name : string).

(** [o[k]] where [o] may be [undefined]: reading a property of [undefined]
    or [null] throws, an own property shadows an inherited one, and a name
    found nowhere reads as [undefined]. *)
Definition get_property (rt : Runtime) (o : option JsVal) (k : string)
  : Result Property :=
  match o with
  | None => Throws (TypeError "Cannot read property of undefined")
  | Some JNull => Throws (TypeError "Cannot read property of null")
  | Some v =>
      Returns (match own_property v k with
               | Some x => Own x
               | None => if inherits rt v k then Inherited k else Undefined
               end)
  end.

(** ** The methods of [HttpRequestService] *)

Definition getRequestBodyFile (rt : Runtime) (parsedBody : ParsedBody)
    (input : string) : Result Property :=
  get_property rt (data parsedBody) input.

Definition getRequestBodyParam (rt : Runtime) (parsedBody : ParsedBody)
    (input : string) : Result Property :=
  get_property rt (data parsedBody) input.

Definition getRequestHeaderParam (request : Request) (input : string)
  : option string :=
  Headers.get (headers request) input.

(** The three properties read here are read with a map lookup:
    [response_content_type] is not a name of any built-in prototype. *)
Definition getResponseContentType (request : Request)
    (defaultContentType : option string) : Result (option JsVal) :=
  let defaultContentType :=
    if truthy_str defaultContentType then defaultContentType
    else Some "application/json" in
  let contentType : option JsVal := Some JNull in
  let contentType :=
    if truthy_str (Headers.get (headers request) "Response-Content-Type")
    then JStr <$> Headers.get (headers request) "Response-Content-Type"
    else contentType in
  match url_query_params request with
  | None => Throws (TypeError "Cannot read property 'response_content_type' of undefined")
  | Some query =>
      let contentType :=
        if truthy_str (query !! "response_content_type")
        then JStr <$> query !! "response_content_type"
        else contentType in
      let contentType :=
        if truthy (pb ← parsed_body request; pb !! "response_content_type")
        then pb ← parsed_body request; pb !! "response_content_type"
        else contentType in
      Returns (if negb (truthy contentType)
               then JStr <$> defaultContentType
               else contentType)
  end.

Definition getUrlPath (request : Request) : string :=
  let path := url request in
  if String.eqb path "/" then path
  else if Str.indexOf "?" (url request) =? -1 then path
  else match Str.split "?" (url request) with
       | first :: _ => first
       | [] => path
       end.

(** The result is [None] for [null]. *)
Definition getUrlQueryString (request : Request) : option string :=
  let queryString : option string := None in
  if Str.indexOf "?" (url request) =? -1 then queryString
  else Str.split "?" (url request) !! 1%nat.

Definition getUrlQueryParams (rt : Runtime) (request : Request)
  : gmap string string :=
  let queryParams : gmap string string := ∅ in
  match parseQueryParamsString rt (getUrlQueryString request) with
  | Returns parsed => parsed
  | Throws _ => queryParams
  end.

Definition hasBody (request : Request) : Promise bool :=
  let ret :=
    Number.gt0 (Number.parseInt
      (Number.ToString (Headers.get (headers request) "content-length"))) in
  let ret :=
    if negb ret
    then Number.gt0 (Number.parseInt
           (Number.ToString (Headers.get (headers request) "Content-Length")))
    else ret in
  Fulfilled ret.

Definition setHeaders (request : Request) (extra : option (list (string * string)))
  : Request :=
  match extra with
  | Some entries =>
      fold_left
        (fun r kv => with_headers (Headers.set (headers r) kv.1 kv.2) r)
        entries request
  | None => request
  end.

(** [Deno.readAll(request.body)]: everything the stream still holds. *)
Definition readAll (who : Decoder) : M (list Byte.byte) :=
  fun s =>
    let b := body (st_request s) in
    (Returns (pending b),
     {| st_request :=
          with_body {| pending := []; reads := reads b ++ [who] |} (st_request s);
        st_options := st_options s |}).

Definition dquote : ascii := ascii_of_nat 34.

Definition parseBodyAsFormUrlEncoded (rt : Runtime) : M (gmap string string) :=
  bytes <- readAll FormUrlEncoded ;;
  let text := decode rt bytes in
  text <- (if negb (Str.indexOf "?" text =? -1)
           then match Str.split "?" text !! 1%nat with
                | Some second => ret second
                | None => throw (TypeError "Cannot read property 'replace' of undefined")
                end
           else ret text) ;;
  let text := Str.remove_all dquote text in
  lift (parseQueryParamsString rt (Some text)).

Definition parseBodyAsJson (rt : Runtime) : M JsVal :=
  bytes <- readAll Json ;;
  let text := decode rt bytes in
  lift (JSON_parse rt text).

Definition parseBodyAsMultipartFormData (rt : Runtime) (boundary : string)
    (maxMemory : option Z) : M (gmap string JsVal) :=
  fun s =>
    let b := body (st_request s) in
    let '(form, rest) := readForm rt (pending b) boundary maxMemory in
    (form,
     {| st_request :=
          with_body {| pending := rest;
                       reads := reads b ++ [MultipartFormData] |} (st_request s);
        st_options := st_options s |}).

Fixpoint string_drop (n : nat) (s : string) : string :=
  match n, s with
  | S m, String _ r => string_drop m r
  | _, _ => s
  end.

(** The first capture group of [contentType.match(/boundary=([^\s]+)/)]:
    the leftmost [boundary=] that a non-space character follows, with the
    longest run of non-space characters after it; [None] when the match is
    [null]. *)
Fixpoint match_boundary (s : string) : option string :=
  let here :=
    if String.prefix "boundary=" s
    then match Str.non_space_run (string_drop 9 s) with
         | EmptyString => None
         | run => Some run
         end
    else None in
  match here, s with
  | Some run, _ => Some run
  | None, String _ r => match_boundary r
  | None, EmptyString => None
  end.

(** [contentType && contentType.includes(token)] *)
Definition declares (contentType : option string) (token : string) : bool :=
  truthy_str contentType
  && match contentType with
     | Some text => Str.includes token text
     | None => false
     end.

Definition truthy_num (n : option Z) : bool :=
  match n with
  | Some v => negb (v =? 0)
  | None => false
  end.

Definition parseBody (rt : Runtime) : M ParsedBody :=
  request <- get_request ;;
  let result := {| content_type := None; data := None |} in
  if negb (truthy_promise (hasBody request)) then ret result
  else
  options <- get_options ;;
  match memory_allocation options with
  | None =>
      throw (TypeError "Cannot read property 'multipart_form_data' of undefined")
  | Some allocation =>
  put_options
    (with_memory_allocation
       {| multipart_form_data :=
            if negb (truthy_num (multipart_form_data allocation))
            then Some (1024 * 1024 * 128)
            else (fun mb => mb * (1024 * 1024)) <$> multipart_form_data allocation;
          ma_other := ma_other allocation |}
       options) ;;;
  let contentType := Headers.get (headers request) "Content-Type" in
  result <-
    (if negb (truthy_str contentType)
     then try_catch
            (parsed <- parseBodyAsFormUrlEncoded rt ;;
             ret {| content_type := Some "application/x-www-form-urlencoded";
                    data := Some (JObj (JStr <$> parsed)) |})
            (fun error =>
               throw (WrappedError
                 "Error reading request body. No Content-Type header was specified. Therefore, the body was parsed as application/x-www-form-urlencoded by default and failed."
                 error))
     else ret result) ;;
  result <-
    (if declares contentType "multipart/form-data"
     then try_catch
            (boundary <-
               match contentType ≫= match_boundary with
               | Some token => ret token
               | None => throw (TypeError "Cannot read property '1' of null")
               end ;;
             options <- get_options ;;
             maxMemory <-
               match memory_allocation options with
               | Some current => ret (multipart_form_data current)
               | None =>
                   throw (TypeError "Cannot read property 'multipart_form_data' of undefined")
               end ;;
             parsed <- parseBodyAsMultipartFormData rt boundary maxMemory ;;
             ret {| content_type := Some "multipart/form-data";
                    data := Some (JObj parsed) |})
            (fun error =>
               throw (WrappedError
                 "Error reading request body as multipart/form-data." error))
     else ret result) ;;
  result <-
    (if declares contentType "application/json"
     then try_catch
            (parsed <- parseBodyAsJson rt ;;
             ret {| content_type := Some "application/json";
                    data := Some parsed |})
            (fun error =>
               throw (WrappedError
                 "Error reading request body as application/json." error))
     else ret result) ;;
  result <-
    (if declares contentType "application/x-www-form-urlencoded"
     then try_catch
            (parsed <- parseBodyAsFormUrlEncoded rt ;;
             ret {| content_type := Some "application/x-www-form-urlencoded";
                    data := Some (JObj (JStr <$> parsed)) |})
            (fun error =>
               throw (WrappedError
                 "Error reading request body as application/x-www-form-urlencoded."
                 error))
     else ret result) ;;
  ret result
  end.

(** [parseBody(request, options)] as a caller sees it: [options] is [None]
    when the argument is left out, and the method then works on a fresh
    [{}]. *)
Definition parseBody_call (rt : Runtime) (request : Request)
    (options : option Options) : Result ParsedBody * Store :=
  parseBody rt
    {| st_request := request;
       st_options := match options with
                     | Some given => given
                     | None => empty_options
                     end |}.

(** The body of [hydrate] once [options] is known to be an object. *)
Definition hydrate (rt : Runtime) : M unit :=
  options <- get_options ;;
  match o_headers options with
  | Some _ =>
      update_request (fun request => setHeaders request (o_headers options))
  | None => ret tt
  end ;;;
  update_request (fun request => with_url_path (getUrlPath request) request) ;;;
  update_request
    (fun request => with_url_query_params (getUrlQueryParams rt request) request) ;;;
  request <- get_request ;;
  negotiated <-
    lift (getResponseContentType request (default_response_content_type options)) ;;
  update_request (with_response_content_type negotiated) ;;;
  pb <- parseBody rt ;;
  update_request (with_bound_body pb) ;;;
  ret tt.

(** [hydrate(request, options)] as a caller sees it: the outcome, the
    request object and the [options] object afterwards. [options] is [None]
    when the argument is left out; [options.headers] is then read from
    [undefined]. *)
Definition hydrate_call (rt : Runtime) (request : Request)
    (options : option Options) : Result unit * Request * option Options :=
  match options with
  | None =>
      (Throws (TypeError "Cannot read property 'headers' of undefined"),
       request, None)
  | Some given =>
      let '(outcome, s) :=
        hydrate rt {| st_request := request; st_options := given |} in
      (outcome, st_request s, Some (st_options s))
  end.

(** [request.getBodyParam(input)] and [request.getBodyFile(input)]: the
    closures exist once [hydrate] has run to its end. *)
Definition getBodyParam (rt : Runtime) (request : Request) (input : string)
  : Result Property :=
  match bound_body request with
  | Some pb => getRequestBodyParam rt pb input
  | None => Throws (TypeError "request.getBodyParam is not a function")
  end.

Definition getBodyFile (rt : Runtime) (request : Request) (input : string)
  : Result Property :=
  match bound_body request with
  | Some pb => getRequestBodyFile rt pb input
  | None => Throws (TypeError "request.getBodyFile is not a function")
  end.

(** ** A runtime to run the model on concrete requests *)

Module Sample.

(** On a body of ASCII bytes the UTF-8 decoder yields the characters of the
    same codes. *)
Definition ascii_text (bytes : list Byte.byte) : string :=
  string_of_list_byte bytes.

Definition is_json_space (a : ascii) : bool :=
  let n := Str.code a in
  (n =? 32) || (n =? 9) || (n =? 10) || (n =? 13).

Fixpoint skip_spaces (s : string) : string :=
  match s with
  | String a r => if is_json_space a then skip_spaces r else s
  | EmptyString => EmptyString
  end.

Fixpoint all_spaces (s : string) : bool :=
  match s with
  | String a r => is_json_space a && all_spaces r
  | EmptyString => true
  end.

Fixpoint digit_run (s : string) : string * string :=
  match s with
  | String a r =>
      if (48 <=? Str.code a) && (Str.code a <=? 57)
      then let '(run, rest) := digit_run r in (String a run, rest)
      else (EmptyString, s)
  | EmptyString => (EmptyString, EmptyString)
  end.

Definition keyword (word : string) (v : JsVal) (s : string) : option JsVal :=
  if String.prefix word s && all_spaces (string_drop (String.length word) s)
  then Some v
  else None.

Definition integer (s : string) : option JsVal :=
  let '(sign, s) := match s with
                    | String "-" r => (-1, r)
                    | _ => (1, s)
                    end in
  let '(run, rest) := digit_run s in
  match canonical_index run with
  | Some n => if all_spaces rest then Some (JNum (sign * Z.of_nat n)) else None
  | None => None
  end.

(** [JSON.parse] on the scalar texts [null], [true], [false] and the decimal
    integers, with white space around them. This runtime has no parser
    for the other JSON texts and answers them, like the texts that are not
    JSON (the empty text among them), with a [SyntaxError]. *)
Definition scalar_JSON_parse (text : string) : Result JsVal :=
  let s := skip_spaces text in
  match keyword "null" JNull s, keyword "true" (JBool true) s,
        keyword "false" (JBool false) s, integer s with
  | Some v, _, _, _ | _, Some v, _, _ | _, _, Some v, _ | _, _, _, Some v =>
      Returns v
  | None, None, None, None => Throws (SyntaxError "Unexpected token in JSON")
  end.

Definition hex_pair (h l : ascii) : option ascii :=
  match Number.radix_digit 16 h, Number.radix_digit 16 l with
  | Some x, Some y => Some (ascii_of_nat (Z.to_nat (16 * x + y)))
  | _, _ => None
  end.

Fixpoint url_decode (s : string) : string :=
  match s with
  | String "%" (String h (String l r) as escaped) =>
      match hex_pair h l with
      | Some a => String a (url_decode r)
      | None => String "%" (url_decode escaped)
      end
  | String a r => String a (url_decode r)
  | EmptyString => EmptyString
  end.

Definition add_pair (m : gmap string string) (piece : string)
  : gmap string string :=
  match Str.split "=" piece with
  | key :: value :: _ => <[url_decode key := url_decode value]> m
  | key :: [] => <[url_decode key := EmptyString]> m
  | [] => m
  end.

(** Modelled from the spec: [StringService.parseQueryParamsString] is not
    among the source files. The spec has the query string decoded as
    "key=value pairs joined by [&]" into a mapping, "last occurrence wins",
    "keys/values are URL-decoded"; nothing to decode gives the empty
    mapping. *)
Definition spec_parseQueryParamsString (text : option string)
  : Result (gmap string string) :=
  match text with
  | None | Some EmptyString => Returns ∅
  | Some s => Returns (fold_left add_pair (Str.split "&" s) ∅)
  end.

(** This runtime has no multipart parser: it reads the stream to its end
    and reports the form as malformed. *)
Definition failing_readForm (bytes : list Byte.byte) (boundary : string)
    (maxMemory : option Z) : Result (gmap string JsVal) * list Byte.byte :=
  (Throws (IOError "malformed multipart body"), []).

(** The names of [Object.prototype], which every value inherits unless an
    own property shadows them. *)
Definition Object_prototype : list string :=
  [ "constructor"; "hasOwnProperty"; "isPrototypeOf"; "propertyIsEnumerable";
    "toLocaleString"; "toString"; "valueOf"; "__proto__";
    "__defineGetter__"; "__defineSetter__"; "__lookupGetter__";
    "__lookupSetter__" ].

Definition inherits_from_Object (v : JsVal) (name : string) : bool :=
  existsb (String.eqb name) Object_prototype.

Definition runtime : Runtime :=
  {| decode := ascii_text;
     JSON_parse := scalar_JSON_parse;
     parseQueryParamsString := spec_parseQueryParamsString;
     readForm := failing_readForm;
     inherits := inherits_from_Object |}.

Definition ascii_bytes (s : string) : list Byte.byte := list_byte_of_string s.

End Sample.


(** ** The specification's wording, for comparison with the code *)

(** The text after the first occurrence of [c]: the result the
    specification gives for the query string of a URL. *)
Fixpoint after_first (c : ascii) (s : string) : option string :=
  match s with
  | EmptyString => None
  | String a r => if Ascii.eqb a c then Some r else after_first c r
  end.

(** The specification's precedence for the response content type: the
    field of the parsed body, the query parameter, the header, the default,
    the first of them that is not empty; [application/json] when the
    default is empty too. *)
Definition negotiate (header query : option string) (field : option JsVal)
    (defaultType : option string) : option JsVal :=
  if truthy field then field
  else if truthy_str query then JStr <$> query
  else if truthy_str header then JStr <$> header
  else if truthy_str defaultType then JStr <$> defaultType
  else Some (JStr "application/json").

(** The content type a decoder stands for, and the text its branch of
    [parseBody] looks for in the [Content-Type] header. *)
Definition token (d : Decoder) : string :=
  match d with
  | MultipartFormData => "multipart/form-data"
  | Json => "application/json"
  | FormUrlEncoded => "application/x-www-form-urlencoded"
  end.

(** The branches of [parseBody] that a [Content-Type] value matches, in
    the order of the source. *)
Definition matching (contentType : option string) : list Decoder :=
  (if declares contentType (token MultipartFormData)
   then [MultipartFormData] else [])
  ++ (if declares contentType (token Json) then [Json] else [])
  ++ (if declares contentType (token FormUrlEncoded)
      then [FormUrlEncoded] else []).

(** The decoders [parseBody] runs for a [Content-Type] value: the form
    decoder when there is no value, the matching branches otherwise. *)
Definition attempts (contentType : option string) : list Decoder :=
  if truthy_str contentType then matching contentType else [FormUrlEncoded].

(** What a branch assigns to [ret.data]. *)
Definition decode_with (rt : Runtime) (contentType : option string)
    (d : Decoder) : M JsVal :=
  match d with
  | MultipartFormData =>
      boundary <-
        match contentType ≫= match_boundary with
        | Some found => ret found
        | None => throw (TypeError "Cannot read property '1' of null")
        end ;;
      options <- get_options ;;
      maxMemory <-
        match memory_allocation options with
        | Some current => ret (multipart_form_data current)
        | None =>
            throw (TypeError "Cannot read property 'multipart_form_data' of undefined")
        end ;;
      parsed <- parseBodyAsMultipartFormData rt boundary maxMemory ;;
      ret (JObj parsed)
  | Json => parseBodyAsJson rt
  | FormUrlEncoded =>
      parsed <- parseBodyAsFormUrlEncoded rt ;;
      ret (JObj (JStr <$> parsed))
  end.

(** The megabytes-to-bytes normalisation of the specification. *)
Definition normalized (allocation : MemoryAllocation) : MemoryAllocation :=
  {| multipart_form_data :=
       Some (match multipart_form_data allocation with
             | Some megabytes =>
                 if megabytes =? 0 then 134217728 else megabytes * 1048576
             | None => 134217728
             end);
     ma_other := ma_other allocation |}.

(** The store once a decoder has read from the body stream and left
    [rest] on it. *)
Definition after_read (d : Decoder) (rest : list Byte.byte) (s : Store) : Store :=
  {| st_request :=
       with_body {| pending := rest;
                    reads := reads (body (st_request s)) ++ [d] |}
                 (st_request s);
     st_options := st_options s |}.

Definition branch_error (d : Decoder) : string :=
  match d with
  | MultipartFormData => "Error reading request body as multipart/form-data."
  | Json => "Error reading request body as application/json."
  | FormUrlEncoded =>
      "Error reading request body as application/x-www-form-urlencoded."
  end.

(** One [if (contentType && contentType.includes(...)) { try ... }] of
    [parseBody], with [current] the value of [ret] before it. *)
Definition attempt (rt : Runtime) (contentType : option string) (d : Decoder)
    (current : ParsedBody) : M ParsedBody :=
  if declares contentType (token d)
  then try_catch
         (v <- decode_with rt contentType d ;;
          ret {| content_type := Some (token d); data := Some v |})
         (fun error => throw (WrappedError (branch_error d) error))
  else ret current.

(** The [if (!contentType) { try ... }] of [parseBody]. *)
Definition fallback (rt : Runtime) (contentType : option string)
    (current : ParsedBody) : M ParsedBody :=
  if negb (truthy_str contentType)
  then try_catch
         (v <- decode_with rt contentType FormUrlEncoded ;;
          ret {| content_type := Some (token FormUrlEncoded); data := Some v |})
         (fun error =>
            throw (WrappedError
              "Error reading request body. No Content-Type header was specified. Therefore, the body was parsed as application/x-www-form-urlencoded by default and failed."
              error))
  else ret current.

Definition branches (rt : Runtime) (contentType : option string)
  : M ParsedBody :=
  r <- fallback rt contentType {| content_type := None; data := None |} ;;
  r <- attempt rt contentType MultipartFormData r ;;
  r <- attempt rt contentType Json r ;;
  r <- attempt rt contentType FormUrlEncoded r ;;
  ret r.

(** The decoders that have read from the body stream so far. *)
Definition log (s : Store) : list Decoder := reads (body (st_request s)).

(** A computation that leaves the options object alone and touches nothing
    of the request but its body stream. *)
Definition frames {A : Type} (m : M A) : Prop :=
  forall s : Store,
    st_options (m s).2 = st_options s /\
    exists b, st_request (m s).2 = with_body b (st_request s).

(** The header map once [setHeaders] has merged the entries of
    [options.headers] into it. *)
Definition merged (h : gmap string string)
    (extra : option (list (string * string))) : gmap string string :=
  match extra with
  | Some entries => fold_left (fun acc kv => Headers.set acc kv.1 kv.2) entries h
  | None => h
  end.

(** The request as [hydrate] has it when it calls [parseBody]: headers
    merged, path, query parameters and response content type attached. *)
Definition prepared (rt : Runtime) (request : Request) (options : Options)
  : Request :=
  let r1 := match o_headers options with
            | Some _ => setHeaders request (o_headers options)
            | None => request
            end in
  let r2 := with_url_path (getUrlPath r1) r1 in
  let r3 := with_url_query_params (getUrlQueryParams rt r2) r2 in
  with_response_content_type
    (negotiate (Headers.get (headers r3) "Response-Content-Type")
               (getUrlQueryParams rt r2 !! "response_content_type")
               (pb ← parsed_body r3; pb !! "response_content_type")
               (default_response_content_type options))
    r3.

(** ** Further methods and reference definitions *)

(** [request.url_query_params[input]]: the query parameters are an object
    of strings once [hydrate] has attached them, [undefined] before. *)
Definition getRequestQueryParam (rt : Runtime) (request : Request)
    (input : string) : Result Property :=
  get_property rt
    ((fun query => JObj (JStr <$> query)) <$> url_query_params request) input.

(** The value the entries of [options.headers] give a header name: that of
    the last entry whose name is the same up to case, if there is one. *)
Definition overriding (name : string) (entries : list (string * string))
  : option string :=
  fold_left
    (fun found kv =>
       if String.eqb (Str.toLowerCase kv.1) (Str.toLowerCase name)
       then Some kv.2 else found)
    entries None.

(** The message [parseBody] puts before the error of the form decoder when
    the request has no [Content-Type] value. *)
Definition no_content_type_error : string :=
  "Error reading request body. No Content-Type header was specified. Therefore, the body was parsed as application/x-www-form-urlencoded by default and failed.".

(** The message in front of the error a decoder threw. *)
Definition error_prefix (contentType : option string) (d : Decoder) : string :=
  if truthy_str contentType then branch_error d else no_content_type_error.

(** The text [parseBodyAsFormUrlEncoded] hands to
    [parseQueryParamsString] for a body text: the text itself, or what
    follows its first question mark up to the second when it has one,
    without the double quotes. *)
Definition form_text (text : string) : string :=
  Str.remove_all dquote
    (if Str.indexOf "?" text =? -1 then text
     else match Str.split "?" text !! 1%nat with
          | Some second => second
          | None => text
          end).

(** The number of bytes [parseBody] allows the multipart reader, from the
    options as the caller gave them. *)
Definition byte_limit (options : Options) : option Z :=
  allocation ← memory_allocation options;
  multipart_form_data (normalized allocation).

(** The bytes the multipart reader leaves on the stream of a request, read
    with the boundary of the [Content-Type] value. *)
Definition left_by_multipart (rt : Runtime) (contentType : option string)
    (s : Store) : list Byte.byte :=
  match contentType ≫= match_boundary with
  | Some boundary =>
      (readForm rt (pending (body (st_request s))) boundary
         (byte_limit (st_options s))).2
  | None => pending (body (st_request s))
  end.

(** The bytes on the stream when the branch of a decoder starts, the
    branches before it having returned: the JSON decoder comes after the
    multipart reader, the form decoder after both, and the JSON decoder
    leaves nothing. *)
Definition seen_by (rt : Runtime) (contentType : option string) (d : Decoder)
    (s : Store) : list Byte.byte :=
  match d with
  | MultipartFormData => pending (body (st_request s))
  | Json =>
      if declares contentType "multipart/form-data"
      then left_by_multipart rt contentType s
      else pending (body (st_request s))
  | FormUrlEncoded =>
      if declares contentType "application/json" then []
      else if declares contentType "multipart/form-data"
           then left_by_multipart rt contentType s
           else pending (body (st_request s))
  end.

(** * Properties *)

Local Open Scope list_scope.

(** ** Strings *)

Lemma indexOf_lower_bound (c : ascii) (s : string) : -1 <= Str.indexOf c s.
Proof.
  induction s as [|a r IH]; simpl; [lia|].
  destruct (Ascii.eqb a c); [lia|].
  destruct (Z.eqb_spec (Str.indexOf c r) (-1)); lia.
Qed.

Lemma indexOf_absent (c : ascii) (s : string) :
  Str.indexOf c s = -1 <-> ~ Str.has c s.
Proof.
  induction s as [|a r IH]; simpl; [tauto|].
  destruct (Ascii.eqb_spec a c) as [Heq|Hne].
  - split; [lia | intros H; exfalso; apply H; now left].
  - pose proof (indexOf_lower_bound c r) as Hlb.
    destruct (Z.eqb_spec (Str.indexOf c r) (-1)) as [He|He].
    + split; [|reflexivity].
      intros _ [Hac|Hin]; [contradiction | now apply IH in Hin].
    + split; [lia|].
      intros Hno. exfalso. apply He, IH. intros Hin. apply Hno. now right.
Qed.

Lemma classic_has (c : ascii) (s : string) : Str.has c s \/ ~ Str.has c s.
Proof.
  induction s as [|a r IH]; simpl; [tauto|].
  destruct (Ascii.eqb_spec a c); tauto.
Qed.

Lemma has_app (c : ascii) (s t : string) :
  Str.has c (s +:+ t) <-> Str.has c s \/ Str.has c t.
Proof. induction s as [|a r IH]; simpl; tauto. Qed.

Lemma split_nonempty (c : ascii) (s : string) : Str.split c s <> [].
Proof.
  destruct s as [|a r]; simpl; [discriminate|].
  destruct (Ascii.eqb a c); [discriminate|].
  destruct (Str.split c r); discriminate.
Qed.

Lemma split_without_separator (c : ascii) (s : string) :
  ~ Str.has c s -> Str.split c s = [s].
Proof.
  induction s as [|a r IH]; simpl; intros Hno; [reflexivity|].
  destruct (Ascii.eqb_spec a c) as [Heq|Hne]; [exfalso; apply Hno; now left|].
  rewrite IH; [reflexivity | intros Hin; apply Hno; now right].
Qed.

Lemma split_at_first_separator (c : ascii) (pre rest : string) :
  ~ Str.has c pre ->
  Str.split c (pre +:+ String c rest) = pre :: Str.split c rest.
Proof.
  induction pre as [|a r IH]; simpl; intros Hno.
  - now rewrite Ascii.eqb_refl.
  - destruct (Ascii.eqb_spec a c) as [Heq|Hne]; [exfalso; apply Hno; now left|].
    rewrite IH; [reflexivity | intros Hin; apply Hno; now right].
Qed.

Lemma split_with_separator (c : ascii) (s : string) :
  Str.has c s -> exists x y l, Str.split c s = x :: y :: l.
Proof.
  induction s as [|a r IH]; simpl; [tauto|].
  intros Hin. destruct (Ascii.eqb_spec a c) as [Heq|Hne].
  - destruct (Str.split c r) as [|y l] eqn:Hs;
      [now apply split_nonempty in Hs | eauto].
  - destruct Hin as [Hac|Hin]; [contradiction|].
    destruct (IH Hin) as (x & y & l & ->). eauto.
Qed.

(** ** URL decomposition *)

Lemma getUrlQueryString_null (request : Request) :
  getUrlQueryString request = None <-> ~ Str.has "?" (url request).
Proof.
  unfold getUrlQueryString.
  destruct (Z.eqb_spec (Str.indexOf "?" (url request)) (-1)) as [He|He].
  - split; [intros _; now apply indexOf_absent | reflexivity].
  - assert (Hin : Str.has "?" (url request)).
    { destruct (classic_has "?" (url request)) as [Hin|Hno]; [assumption|].
      exfalso. apply He. now apply indexOf_absent. }
    destruct (split_with_separator _ _ Hin) as (x & y & l & Hs).
    rewrite Hs. simpl. split; [discriminate | tauto].
Qed.

(** What [getUrlQueryString] returns: [null] exactly for a URL with no
    question mark; for a URL [pre?q] or [pre?q?more], where neither [pre]
    nor [q] holds a question mark, the text [q] between the first question
    mark and the second one, or the end of the URL. It is the query
    string of the URL when the URL has one question mark, and only the
    beginning of it when the URL has more. *)
Lemma getUrlQueryString_first_segment (request : Request) :
  (getUrlQueryString request = None <-> ~ Str.has "?" (url request)) /\
  (forall pre q : string,
     ~ Str.has "?" pre -> ~ Str.has "?" q ->
     (url request = pre +:+ "?" +:+ q ->
      getUrlQueryString request = Some q /\
      after_first "?" (url request) = Some q) /\
     (forall more : string,
        url request = pre +:+ "?" +:+ q +:+ "?" +:+ more ->
        getUrlQueryString request = Some q)).
Proof.
  split; [apply getUrlQueryString_null|].
  intros pre q Hpre Hq.
  assert (Hidx : forall tail, url request = pre +:+ String "?" tail ->
                 (Str.indexOf "?" (url request) =? -1) = false).
  { intros tail Hurl. apply Z.eqb_neq. intros He.
    apply indexOf_absent in He. apply He. rewrite Hurl.
    apply has_app. right. now left. }
  split.
  - intros Hurl. split.
    + unfold getUrlQueryString. rewrite (Hidx q Hurl), Hurl.
      change (pre +:+ "?" +:+ q) with (pre +:+ String "?" q).
      rewrite split_at_first_separator by assumption.
      now rewrite split_without_separator.
    + rewrite Hurl. clear -Hpre.
      change (pre +:+ "?" +:+ q) with (pre +:+ String "?" q).
      induction pre as [|a r IH]; simpl; [reflexivity|].
      destruct (Ascii.eqb_spec a "?") as [Heq|Hne];
        [exfalso; apply Hpre; now left|].
      apply IH. intros Hin. apply Hpre. now right.
  - intros more Hurl. unfold getUrlQueryString.
    rewrite (Hidx (q +:+ "?" +:+ more) Hurl), Hurl.
    change (pre +:+ "?" +:+ q +:+ "?" +:+ more)
      with (pre +:+ String "?" (q +:+ String "?" more)).
    now rewrite !split_at_first_separator by assumption.
Qed.

Lemma getUrlQueryString_first_segment_example :
  getUrlQueryString (incoming "/users?id=7&sort=asc" ∅ []) = Some "id=7&sort=asc" /\
  getUrlQueryString (incoming "/users?id=7?sort=asc" ∅ []) = Some "id=7".
Proof.
  pose proof (getUrlQueryString_first_segment
                (incoming "/users?id=7&sort=asc" ∅ [])) as [_ H1].
  pose proof (getUrlQueryString_first_segment
                (incoming "/users?id=7?sort=asc" ∅ [])) as [_ H2].
  split.
  - apply (H1 "/users" "id=7&sort=asc"); [simpl; intuition discriminate..| reflexivity].
  - apply (H2 "/users" "id=7") with (more := "sort=asc");
      [simpl; intuition discriminate..| reflexivity].
Defined.

(** C7, on the code: on a URL whose query string holds a question mark,
    [getUrlQueryString] returns only the beginning of the query string, up
    to that question mark, where the text after the first question mark of
    the URL, its query string, goes on; the parameters after it are
    lost. *)
Theorem getUrlQueryString_stops_at_second_question_mark :
  getUrlQueryString (incoming "/users?id=7?sort=asc" ∅ []) = Some "id=7" /\
  after_first "?" (url (incoming "/users?id=7?sort=asc" ∅ []))
  = Some "id=7?sort=asc" /\
  getUrlQueryString (incoming "/search?q=what?&page=2" ∅ []) = Some "q=what" /\
  after_first "?" (url (incoming "/search?q=what?&page=2" ∅ []))
  = Some "q=what?&page=2".
Proof. repeat split; reflexivity. Qed.

(** ** Content negotiation *)

Lemma getResponseContentType_negotiates (request : Request)
    (query : gmap string string) (defaultContentType : option string) :
  url_query_params request = Some query ->
  getResponseContentType request defaultContentType =
    Returns (negotiate
               (Headers.get (headers request) "Response-Content-Type")
               (query !! "response_content_type")
               (pb ← parsed_body request; pb !! "response_content_type")
               defaultContentType).
Proof.
  intros Hq. unfold getResponseContentType, negotiate. rewrite Hq.
  destruct (truthy (pb ← parsed_body request; pb !! "response_content_type"))
    eqn:Hb; [now rewrite Hb|].
  destruct (truthy_str (query !! "response_content_type")) eqn:Hquery.
  - destruct (query !! "response_content_type") as [q|]; [|discriminate].
    simpl in *. now rewrite Hquery.
  - destruct (truthy_str (Headers.get (headers request) "Response-Content-Type"))
      eqn:Hh.
    + destruct (Headers.get (headers request) "Response-Content-Type")
        as [h|]; [|discriminate].
      simpl in *. now rewrite Hh.
    + simpl. destruct defaultContentType as [d|]; [|reflexivity].
      simpl. destruct (String.eqb d ""); reflexivity.
Qed.

(** C2. On a request that carries its query parameters, the response
    content type is the [response_content_type] field of the parsed body
    when that is not empty, else the query parameter of that name when not
    empty, else the [Response-Content-Type] header when not empty, else the
    default, and [application/json] when the default is empty or missing:
    the checks run header, query, body, each non-empty source replacing
    what the earlier ones gave. *)
Theorem getResponseContentType_precedence (request : Request)
    (query : gmap string string) (defaultContentType : option string) :
  url_query_params request = Some query ->
  getResponseContentType request defaultContentType =
    Returns (negotiate
               (Headers.get (headers request) "Response-Content-Type")
               (query !! "response_content_type")
               (pb ← parsed_body request; pb !! "response_content_type")
               defaultContentType).
Proof. apply getResponseContentType_negotiates. Qed.

Lemma getResponseContentType_precedence_example :
  getResponseContentType
    (with_url_query_params {[ "response_content_type" := "text/html" ]}
       (incoming "/?response_content_type=text/html"
          {[ "response-content-type" := "text/xml" ]} []))
    (Some "application/json")
  = Returns (Some (JStr "text/html")).
Proof.
  rewrite (getResponseContentType_precedence _
             {[ "response_content_type" := "text/html" ]});
    reflexivity.
Defined.

(** Without query parameters on the request the method does not get as far
    as the checks. *)
Lemma getResponseContentType_without_query_params (request : Request)
    (defaultContentType : option string) :
  url_query_params request = None ->
  exists msg, getResponseContentType request defaultContentType
              = Throws (TypeError msg).
Proof. intros H. unfold getResponseContentType. rewrite H. eauto. Qed.

(** ** Body presence *)

Lemma Headers_get_case_insensitive (h : gmap string string) (a b : string) :
  Str.toLowerCase a = Str.toLowerCase b -> Headers.get h a = Headers.get h b.
Proof. unfold Headers.get. now intros ->. Qed.

(** C6. [hasBody] never rejects; its answer is [true] exactly when the
    request has a [Content-Length] header, under whatever spelling of the
    name, on which [parseInt] gives an integer above zero. A missing header
    and a header with no leading integer give [false]. *)
Theorem hasBody_positive_content_length (request : Request) :
  exists answer : bool,
    hasBody request = Fulfilled answer /\
    (answer = true <->
       exists (value : string) (n : Z),
         Headers.get (headers request) "Content-Length" = Some value /\
         Number.parseInt value = Some n /\ 0 < n) /\
    (forall name : string,
       Str.toLowerCase name = "content-length" ->
       Headers.get (headers request) name
       = Headers.get (headers request) "Content-Length") /\
    (Headers.get (headers request) "Content-Length" = None -> answer = false) /\
    (forall value : string,
       Headers.get (headers request) "Content-Length" = Some value ->
       Number.parseInt value = None -> answer = false).
Proof.
  unfold hasBody.
  change (Headers.get (headers request) "content-length")
    with (Headers.get (headers request) "Content-Length").
  set (found := Headers.get (headers request) "Content-Length").
  set (answer := Number.gt0 (Number.parseInt (Number.ToString found))).
  exists answer. split; [now destruct answer|].
  assert (Hiff : answer = true <->
            exists value n, found = Some value /\
              Number.parseInt value = Some n /\ 0 < n).
  { subst answer. destruct found as [value|]; simpl.
    - destruct (Number.parseInt value) as [n|] eqn:Hn; simpl.
      + rewrite Z.ltb_lt. split.
        * intros Hpos. exists value, n. auto.
        * intros (v & m & [= <-] & Hm & Hpos). congruence.
      + split; [discriminate|].
        intros (v & m & [= <-] & Hm & _). congruence.
    - split; [discriminate|]. intros (v & m & Hv & _). discriminate. }
  split; [exact Hiff|]. split; [|split].
  - intros name Hname. apply Headers_get_case_insensitive. now rewrite Hname.
  - intros Hnone. destruct answer; [|reflexivity].
    destruct Hiff as [Hex _]. destruct (Hex eq_refl) as (v & n & Hv & _).
    congruence.
  - intros value Hv Hnan. destruct answer; [|reflexivity].
    destruct Hiff as [Hex _]. destruct (Hex eq_refl) as (v & n & Hv' & Hn & _).
    congruence.
Qed.

Lemma hasBody_examples :
  hasBody (incoming "/" {[ "content-length" := "0" ]} []) = Fulfilled false /\
  hasBody (incoming "/" {[ "content-length" := "42" ]} []) = Fulfilled true /\
  hasBody (incoming "/" ∅ []) = Fulfilled false /\
  hasBody (incoming "/" {[ "content-length" := "many" ]} []) = Fulfilled false.
Proof. repeat split; vm_compute; reflexivity. Qed.

(** ** Body decoding *)

Lemma bind_returns {A B : Type} (m : M A) (k : A -> M B) (s s' : Store) (b : B) :
  bind m k s = (Returns b, s') ->
  exists a s1, m s = (Returns a, s1) /\ k a s1 = (Returns b, s').
Proof.
  unfold bind. destruct (m s) as [[a|e] s1]; [eauto | discriminate].
Qed.

Lemma parseBodyAsFormUrlEncoded_store (rt : Runtime) (s : Store) :
  (parseBodyAsFormUrlEncoded rt s).2 = after_read FormUrlEncoded [] s.
Proof.
  unfold parseBodyAsFormUrlEncoded, bind, readAll, lift, ret, throw. simpl.
  destruct (negb _); [destruct (_ !! _)|]; reflexivity.
Qed.

Lemma parseBodyAsJson_store (rt : Runtime) (s : Store) :
  (parseBodyAsJson rt s).2 = after_read Json [] s.
Proof. reflexivity. Qed.

Lemma parseBodyAsMultipartFormData_store (rt : Runtime) (boundary : string)
    (maxMemory : option Z) (s : Store) :
  (parseBodyAsMultipartFormData rt boundary maxMemory s).2
  = after_read MultipartFormData
      (readForm rt (pending (body (st_request s))) boundary maxMemory).2 s.
Proof.
  unfold parseBodyAsMultipartFormData.
  destruct (readForm rt _ boundary maxMemory); reflexivity.
Qed.

Ltac run_monad :=
  cbv beta iota zeta delta
    [bind ret throw lift try_catch get_options get_request put_options
     update_request].

(** A decoder that returns has read from the stream; whatever it does, it
    leaves the options alone. *)
Lemma decode_with_returns (rt : Runtime) (contentType : option string)
    (d : Decoder) (s s' : Store) (v : JsVal) :
  decode_with rt contentType d s = (Returns v, s') ->
  exists rest, s' = after_read d rest s.
Proof.
  destruct d; unfold decode_with; run_monad.
  - destruct (contentType ≫= match_boundary) as [boundary|];
      [|discriminate].
    destruct (memory_allocation (st_options s)) as [current|];
      [|discriminate].
    pose proof (parseBodyAsMultipartFormData_store rt boundary
                  (multipart_form_data current) s) as Hs.
    destruct (parseBodyAsMultipartFormData rt boundary _ s) as [[parsed|e] s1];
      [|discriminate].
    simpl in Hs. intros [= <- <-]. eauto.
  - pose proof (parseBodyAsJson_store rt s) as Hs.
    destruct (parseBodyAsJson rt s) as [r s1]. simpl in Hs.
    intros [= -> <-]. eauto.
  - pose proof (parseBodyAsFormUrlEncoded_store rt s) as Hs.
    destruct (parseBodyAsFormUrlEncoded rt s) as [[parsed|e] s1];
      [|discriminate].
    simpl in Hs. intros [= <- <-]. eauto.
Qed.

Lemma decode_with_options (rt : Runtime) (contentType : option string)
    (d : Decoder) (s : Store) :
  st_options (decode_with rt contentType d s).2 = st_options s.
Proof.
  destruct d; unfold decode_with; run_monad.
  - destruct (contentType ≫= match_boundary) as [boundary|]; [|reflexivity].
    destruct (memory_allocation (st_options s)) as [current|]; [|reflexivity].
    pose proof (parseBodyAsMultipartFormData_store rt boundary
                  (multipart_form_data current) s) as Hs.
    destruct (parseBodyAsMultipartFormData rt boundary _ s) as [[parsed|e] s1];
      simpl in *; now subst.
  - reflexivity.
  - pose proof (parseBodyAsFormUrlEncoded_store rt s) as Hs.
    destruct (parseBodyAsFormUrlEncoded rt s) as [[parsed|e] s1];
      simpl in *; now subst.
Qed.

Lemma normalized_as_computed (allocation : MemoryAllocation) :
  {| multipart_form_data :=
       if negb (truthy_num (multipart_form_data allocation))
       then Some (1024 * 1024 * 128)
       else (fun mb => mb * (1024 * 1024)) <$> multipart_form_data allocation;
     ma_other := ma_other allocation |}
  = normalized allocation.
Proof.
  unfold normalized. destruct (multipart_form_data allocation) as [mb|];
    simpl; [|reflexivity].
  destruct (mb =? 0); reflexivity.
Qed.

(** [parseBody] on an options object with a memory allocation: the
    allocation is normalised, then the four [if]s run one after the
    other. The test on [hasBody] is made on the promise and so never takes
    the early return. *)
Lemma parseBody_branches (rt : Runtime) (s : Store)
    (allocation : MemoryAllocation) :
  memory_allocation (st_options s) = Some allocation ->
  parseBody rt s
  = branches rt (Headers.get (headers (st_request s)) "Content-Type")
      {| st_request := st_request s;
         st_options :=
           with_memory_allocation (normalized allocation) (st_options s) |}.
Proof.
  intros Hma. unfold parseBody, branches, fallback, attempt, decode_with.
  run_monad. cbn [truthy_promise negb]. rewrite Hma.
  rewrite normalized_as_computed.
  set (s0 := {| st_request := st_request s;
                st_options := with_memory_allocation (normalized allocation)
                                (st_options s) |}).
  set (ct := Headers.get (headers (st_request s)) "Content-Type").
  cbn [token branch_error].
  destruct (negb (truthy_str ct)).
  - destruct (parseBodyAsFormUrlEncoded rt s0) as [[parsed|e] s1]; [|reflexivity].
    destruct (declares ct "multipart/form-data").
    + destruct (ct ≫= match_boundary) as [boundary|]; [|reflexivity].
      cbn [st_options]. destruct (memory_allocation (st_options s1)); [|reflexivity].
      destruct (parseBodyAsMultipartFormData rt boundary _ s1) as [[p2|e2] s2];
        [|reflexivity].
      destruct (declares ct "application/json").
      * destruct (parseBodyAsJson rt s2) as [[p3|e3] s3]; [|reflexivity].
        destruct (declares ct "application/x-www-form-urlencoded"); [|reflexivity].
        destruct (parseBodyAsFormUrlEncoded rt s3) as [[p4|e4] s4]; reflexivity.
      * destruct (declares ct "application/x-www-form-urlencoded"); [|reflexivity].
        destruct (parseBodyAsFormUrlEncoded rt s2) as [[p4|e4] s4]; reflexivity.
    + destruct (declares ct "application/json").
      * destruct (parseBodyAsJson rt s1) as [[p3|e3] s3]; [|reflexivity].
        destruct (declares ct "application/x-www-form-urlencoded"); [|reflexivity].
        destruct (parseBodyAsFormUrlEncoded rt s3) as [[p4|e4] s4]; reflexivity.
      * destruct (declares ct "application/x-www-form-urlencoded"); [|reflexivity].
        destruct (parseBodyAsFormUrlEncoded rt s1) as [[p4|e4] s4]; reflexivity.
  - destruct (declares ct "multipart/form-data").
    + destruct (ct ≫= match_boundary) as [boundary|]; [|reflexivity].
      change (memory_allocation (st_options s0))
        with (Some (normalized allocation)).
      cbv beta iota.
      destruct (parseBodyAsMultipartFormData rt boundary _ s0) as [[p2|e2] s2];
        [|reflexivity].
      destruct (declares ct "application/json").
      * destruct (parseBodyAsJson rt s2) as [[p3|e3] s3]; [|reflexivity].
        destruct (declares ct "application/x-www-form-urlencoded"); [|reflexivity].
        destruct (parseBodyAsFormUrlEncoded rt s3) as [[p4|e4] s4]; reflexivity.
      * destruct (declares ct "application/x-www-form-urlencoded"); [|reflexivity].
        destruct (parseBodyAsFormUrlEncoded rt s2) as [[p4|e4] s4]; reflexivity.
    + destruct (declares ct "application/json").
      * destruct (parseBodyAsJson rt s0) as [[p3|e3] s3]; [|reflexivity].
        destruct (declares ct "application/x-www-form-urlencoded"); [|reflexivity].
        destruct (parseBodyAsFormUrlEncoded rt s3) as [[p4|e4] s4]; reflexivity.
      * destruct (declares ct "application/x-www-form-urlencoded"); [|reflexivity].
        destruct (parseBodyAsFormUrlEncoded rt s0) as [[p4|e4] s4]; reflexivity.
Qed.

Lemma declares_without_content_type (contentType : option string) (t : string) :
  truthy_str contentType = false -> declares contentType t = false.
Proof. unfold declares. now intros ->. Qed.

Lemma log_after_read (d : Decoder) (rest : list Byte.byte) (s : Store) :
  log (after_read d rest s) = log s ++ [d].
Proof. reflexivity. Qed.

(** A branch that returns either did not match and changed nothing, or
    ran its decoder and replaced both fields of the result. *)
Lemma attempt_returns (rt : Runtime) (contentType : option string)
    (d : Decoder) (current result : ParsedBody) (s s' : Store) :
  attempt rt contentType d current s = (Returns result, s') ->
  if declares contentType (token d)
  then exists v, decode_with rt contentType d s = (Returns v, s') /\
                 log s' = log s ++ [d] /\
                 result = {| content_type := Some (token d); data := Some v |}
  else result = current /\ s' = s.
Proof.
  unfold attempt. destruct (declares contentType (token d)).
  - run_monad.
    destruct (decode_with rt contentType d s) as [[v|e] s1] eqn:Hd;
      [|discriminate].
    intros [= <- <-]. exists v. split; [reflexivity|]. split; [|reflexivity].
    destruct (decode_with_returns _ _ _ _ _ _ Hd) as [rest ->].
    apply log_after_read.
  - run_monad. now intros [= <- <-].
Qed.

Lemma fallback_returns (rt : Runtime) (contentType : option string)
    (current result : ParsedBody) (s s' : Store) :
  fallback rt contentType current s = (Returns result, s') ->
  if truthy_str contentType
  then result = current /\ s' = s
  else exists v, decode_with rt contentType FormUrlEncoded s = (Returns v, s') /\
                 log s' = log s ++ [FormUrlEncoded] /\
                 result = {| content_type := Some (token FormUrlEncoded);
                             data := Some v |}.
Proof.
  unfold fallback. destruct (truthy_str contentType); cbn [negb].
  - run_monad. now intros [= <- <-].
  - run_monad.
    destruct (decode_with rt contentType FormUrlEncoded s) as [[v|e] s1] eqn:Hd;
      [|discriminate].
    intros [= <- <-]. exists v. split; [reflexivity|]. split; [|reflexivity].
    destruct (decode_with_returns _ _ _ _ _ _ Hd) as [rest ->].
    apply log_after_read.
Qed.

Lemma branches_returns (rt : Runtime) (contentType : option string)
    (result : ParsedBody) (s s' : Store) :
  branches rt contentType s = (Returns result, s') ->
  exists r0 s1 r1 s2 r2 s3,
    fallback rt contentType {| content_type := None; data := None |} s
      = (Returns r0, s1) /\
    attempt rt contentType MultipartFormData r0 s1 = (Returns r1, s2) /\
    attempt rt contentType Json r1 s2 = (Returns r2, s3) /\
    attempt rt contentType FormUrlEncoded r2 s3 = (Returns result, s').
Proof.
  unfold branches. intros H.
  apply bind_returns in H as (r0 & s1 & H0 & H).
  apply bind_returns in H as (r1 & s2 & H1 & H).
  apply bind_returns in H as (r2 & s3 & H2 & H).
  apply bind_returns in H as (r3 & s4 & H3 & H).
  injection H as <- <-. repeat eexists; eassumption.
Qed.

Lemma parseBody_returns (rt : Runtime) (result : ParsedBody) (s s' : Store) :
  parseBody rt s = (Returns result, s') ->
  exists allocation,
    memory_allocation (st_options s) = Some allocation /\
    branches rt (Headers.get (headers (st_request s)) "Content-Type")
      {| st_request := st_request s;
         st_options :=
           with_memory_allocation (normalized allocation) (st_options s) |}
    = (Returns result, s').
Proof.
  intros H. destruct (memory_allocation (st_options s)) as [allocation|] eqn:Hma.
  - exists allocation. split; [reflexivity|].
    now rewrite <- (parseBody_branches rt s allocation Hma).
  - exfalso. revert H. unfold parseBody. run_monad.
    cbn [truthy_promise negb]. rewrite Hma. discriminate.
Qed.

(** The four steps of a run of [parseBody] that returns, each with what it
    did. *)
Lemma parseBody_trace (rt : Runtime) (result : ParsedBody) (s s' : Store) :
  parseBody rt s = (Returns result, s') ->
  let contentType := Headers.get (headers (st_request s)) "Content-Type" in
  exists r0 s1 r1 s2 r2 s3,
    log s1 = log s ++ (if truthy_str contentType then [] else [FormUrlEncoded]) /\
    (if truthy_str contentType
     then r0 = {| content_type := None; data := None |}
     else exists v s0, decode_with rt contentType FormUrlEncoded s0 = (Returns v, s1) /\
            r0 = {| content_type := Some (token FormUrlEncoded); data := Some v |}) /\
    attempt rt contentType MultipartFormData r0 s1 = (Returns r1, s2) /\
    attempt rt contentType Json r1 s2 = (Returns r2, s3) /\
    attempt rt contentType FormUrlEncoded r2 s3 = (Returns result, s').
Proof.
  intros H contentType.
  apply parseBody_returns in H as (allocation & _ & H).
  apply branches_returns in H as (r0 & s1 & r1 & s2 & r2 & s3 & H0 & H1 & H2 & H3).
  exists r0, s1, r1, s2, r2, s3.
  apply fallback_returns in H0. fold contentType in H0, H1, H2, H3 |- *.
  destruct (truthy_str contentType).
  - destruct H0 as [-> ->]. repeat split; try assumption.
    unfold log. simpl. now rewrite app_nil_r.
  - destruct H0 as (v & Hd & Hlog & ->). repeat split; try assumption; eauto.
Qed.

Ltac solve_log :=
  repeat match goal with
         | H : log _ = _ |- _ => rewrite H; clear H
         end;
  rewrite <- ?app_assoc, ?app_nil_r; reflexivity.

(** C5. The three branches on the [Content-Type] value are tried one
    after the other, every matching one runs its decoder on what the
    earlier ones left of the stream, and a run of [parseBody] that returns
    keeps the content type and the data of the last branch that matched. *)
Theorem parseBody_last_matching_branch (rt : Runtime) (result : ParsedBody)
    (s s' : Store) :
  parseBody rt s = (Returns result, s') ->
  let contentType := Headers.get (headers (st_request s)) "Content-Type" in
  log s' = log s ++ attempts contentType /\
  forall d : Decoder,
    last (matching contentType) = Some d ->
    content_type result = Some (token d) /\
    exists (before : Store) (v : JsVal),
      log before = log s ++ removelast (matching contentType) /\
      decode_with rt contentType d before = (Returns v, s') /\
      data result = Some v.
Proof.
  intros H contentType.
  apply parseBody_trace in H
    as (r0 & s1 & r1 & s2 & r2 & s3 & Hlog & H0 & H1 & H2 & H3).
  fold contentType in Hlog, H0, H1, H2, H3.
  apply attempt_returns in H1, H2, H3.
  unfold attempts, matching.
  destruct (truthy_str contentType) eqn:Hct.
  - rewrite app_nil_r in Hlog.
    destruct (declares contentType (token MultipartFormData));
      [destruct H1 as (v1 & Hd1 & Hl1 & ->) | destruct H1 as [-> ->]];
      (destruct (declares contentType (token Json));
       [destruct H2 as (v2 & Hd2 & Hl2 & ->) | destruct H2 as [-> ->]]);
      (destruct (declares contentType (token FormUrlEncoded));
       [destruct H3 as (v3 & Hd3 & Hl3 & ->) | destruct H3 as [-> ->]]);
      cbn [app last removelast];
      (split; [solve_log|]); intros d [= <-];
      (split; [reflexivity|]);
      eexists _, _; (split; [|split; [eassumption | reflexivity]]);
      solve_log.
  - rewrite !(declares_without_content_type _ _ Hct) in *.
    destruct H1 as [-> ->], H2 as [-> ->], H3 as [-> ->].
    split; [exact Hlog | discriminate].
Qed.

Lemma parseBody_last_matching_branch_example :
  let request :=
    incoming "/"
      {[ "content-length" := "1";
         "content-type" := "application/json, application/x-www-form-urlencoded" ]}
      (Sample.ascii_bytes "7") in
  let options :=
    {| o_headers := None; default_response_content_type := None;
       memory_allocation := Some {| multipart_form_data := None; ma_other := ∅ |};
       o_other := ∅ |} in
  let outcome := parseBody_call Sample.runtime request (Some options) in
  outcome.1 = Returns {| content_type := Some "application/x-www-form-urlencoded";
                         data := Some (JObj ∅) |} /\
  log outcome.2 = [Json; FormUrlEncoded].
Proof.
  intros request options outcome.
  assert (Hrun : exists result s', outcome = (Returns result, s')).
  { vm_compute. eauto. }
  destruct Hrun as (result & s' & Hrun).
  destruct (parseBody_last_matching_branch Sample.runtime result _ s' Hrun)
    as [Hlog Hlast].
  rewrite Hrun. split; [|exact Hlog].
  vm_compute in Hrun. now injection Hrun as <- _.
Defined.

(** What a decoder that returns has read, what it made of it and what it
    left. *)
Lemma decode_with_result (rt : Runtime) (contentType : option string)
    (d : Decoder) (s s' : Store) (v : JsVal) :
  decode_with rt contentType d s = (Returns v, s') ->
  let bytes := pending (body (st_request s)) in
  match d with
  | Json =>
      JSON_parse rt (decode rt bytes) = Returns v /\
      s' = after_read Json [] s
  | FormUrlEncoded =>
      (exists parsed,
         parseQueryParamsString rt (Some (form_text (decode rt bytes)))
         = Returns parsed /\
         v = JObj (JStr <$> parsed)) /\
      s' = after_read FormUrlEncoded [] s
  | MultipartFormData =>
      exists boundary current form rest,
        contentType ≫= match_boundary = Some boundary /\
        memory_allocation (st_options s) = Some current /\
        readForm rt bytes boundary (multipart_form_data current)
        = (Returns form, rest) /\
        v = JObj form /\
        s' = after_read MultipartFormData rest s
  end.
Proof.
  intros H bytes. subst bytes. revert H.
  destruct d; unfold decode_with; run_monad.
  - destruct (contentType ≫= match_boundary) as [boundary|]; [|discriminate].
    destruct (memory_allocation (st_options s)) as [current|]; [|discriminate].
    unfold parseBodyAsMultipartFormData.
    destruct (readForm rt _ boundary (multipart_form_data current))
      as [[form|e] rest] eqn:Hread; [|discriminate].
    intros [= <- <-]. exists boundary, current, form, rest. now repeat split.
  - unfold parseBodyAsJson, readAll. run_monad.
    destruct (JSON_parse rt _) as [parsed|e] eqn:Hp; [|discriminate].
    intros [= <- <-]. now split.
  - unfold parseBodyAsFormUrlEncoded, readAll, form_text. run_monad.
    destruct (Str.indexOf "?" _ =? -1); cbn [negb].
    + destruct (parseQueryParamsString rt _) as [parsed|e] eqn:Hp; [|discriminate].
      intros [= <- <-]. split; [|reflexivity]. now exists parsed.
    + destruct (Str.split "?" _ !! 1%nat) as [second|]; [|discriminate].
      destruct (parseQueryParamsString rt _) as [parsed|e] eqn:Hp; [|discriminate].
      intros [= <- <-]. split; [|reflexivity]. now exists parsed.
Qed.

(** C3, as amended. For a request that has a body, a run of [parseBody]
    that returns leaves [data] undefined exactly when the [Content-Type]
    header has a value that matches none of the three branches. Otherwise
    [data] is what the last decoder that ran made of the bytes it found
    on the stream: for the JSON decoder the value [JSON.parse] gives for
    their text, which need not be a mapping; for the form decoder the
    mapping of strings [parseQueryParamsString] gives for their text as
    [form_text] prepares it; for the multipart reader the form it read
    with the boundary of the header and the normalised byte limit. *)
Theorem parseBody_data_of_request_with_body (rt : Runtime)
    (result : ParsedBody) (s s' : Store) :
  hasBody (st_request s) = Fulfilled true ->
  parseBody rt s = (Returns result, s') ->
  let contentType := Headers.get (headers (st_request s)) "Content-Type" in
  (data result = None <->
     truthy_str contentType = true /\
     declares contentType "multipart/form-data" = false /\
     declares contentType "application/json" = false /\
     declares contentType "application/x-www-form-urlencoded" = false) /\
  (forall v : JsVal,
     data result = Some v ->
     exists d : Decoder,
       last (attempts contentType) = Some d /\
       match d with
       | Json =>
           JSON_parse rt (decode rt (seen_by rt contentType Json s)) = Returns v
       | FormUrlEncoded =>
           exists parsed : gmap string string,
             parseQueryParamsString rt
               (Some (form_text
                        (decode rt (seen_by rt contentType FormUrlEncoded s))))
             = Returns parsed /\
             v = JObj (JStr <$> parsed)
       | MultipartFormData =>
           exists (boundary : string) (form : gmap string JsVal),
             contentType ≫= match_boundary = Some boundary /\
             (readForm rt (pending (body (st_request s))) boundary
                (byte_limit (st_options s))).1 = Returns form /\
             v = JObj form
       end).
Proof.
  intros _ H contentType.
  apply parseBody_returns in H as (allocation & Hma & H).
  apply branches_returns in H
    as (r0 & s1 & r1 & s2 & r2 & s3 & H0 & H1 & H2 & H3).
  fold contentType in H0, H1, H2, H3.
  apply fallback_returns in H0. apply attempt_returns in H1, H2, H3.
  unfold attempts, matching, seen_by, left_by_multipart, byte_limit.
  rewrite Hma. cbn [mbind option_bind].
  change (token MultipartFormData) with "multipart/form-data" in *.
  change (token Json) with "application/json" in *.
  change (token FormUrlEncoded) with "application/x-www-form-urlencoded" in *.
  destruct (truthy_str contentType) eqn:Hct.
  - destruct H0 as [-> ->].
    destruct (declares contentType "multipart/form-data");
      [destruct H1 as (v1 & Hd1 & _ & ->); apply decode_with_result in Hd1;
       destruct Hd1 as (boundary & current & form & rest & Hb & Hcur & Hread
                        & -> & ->);
       cbn in Hcur; injection Hcur as <-; cbn [st_request] in Hread
      | destruct H1 as [-> ->]];
      (destruct (declares contentType "application/json");
       [destruct H2 as (v2 & Hd2 & _ & ->); apply decode_with_result in Hd2;
        destruct Hd2 as [Hjson ->]; cbn in Hjson
       | destruct H2 as [-> ->]]);
      (destruct (declares contentType "application/x-www-form-urlencoded");
       [destruct H3 as (v3 & Hd3 & _ & ->); apply decode_with_result in Hd3;
        destruct Hd3 as [(parsed & Hparsed & ->) ->]; cbn in Hparsed
       | destruct H3 as [-> ->]]);
      cbn [app last data];
      (split; [split; [try discriminate; tauto
                      | intros (_ & ? & ? & ?); congruence]|]);
      intros v [= <-]; eexists; (split; [reflexivity|]);
      cbn beta iota; rewrite ?Hb; cbn beta iota;
      first [ rewrite Hread; cbn [fst snd]; solve [eauto]
            | solve [eauto]
            | eexists _, _; split; [reflexivity|]; rewrite Hread;
              split; reflexivity ].
  - rewrite !(declares_without_content_type _ _ Hct) in *.
    destruct H1 as [-> ->], H2 as [-> ->], H3 as [-> ->].
    destruct H0 as (v0 & Hd0 & _ & ->). cbn [data last].
    apply decode_with_result in Hd0.
    destruct Hd0 as [(parsed & Hparsed & ->) _]. cbn in Hparsed.
    split; [split; [discriminate | intros [[= ] _]]|].
    intros v [= <-]. exists FormUrlEncoded. split; [reflexivity|]. eauto.
Qed.

(** C3, refuted as stated: a request with a body and a recognised content
    type for which [data] is neither undefined nor a mapping. The body is
    the JSON text [5]. *)
Lemma parseBody_json_number_is_not_a_mapping :
  let request :=
    incoming "/" {[ "content-length" := "1"; "content-type" := "application/json" ]}
      (Sample.ascii_bytes "5") in
  let options :=
    {| o_headers := None; default_response_content_type := None;
       memory_allocation := Some {| multipart_form_data := None; ma_other := ∅ |};
       o_other := ∅ |} in
  hasBody request = Fulfilled true /\
  (parseBody_call Sample.runtime request (Some options)).1
  = Returns {| content_type := Some "application/json"; data := Some (JNum 5) |} /\
  is_mapping (JNum 5) = false.
Proof. repeat split; vm_compute; reflexivity. Qed.

Lemma parseBody_data_of_request_with_body_example :
  let request :=
    incoming "/" {[ "content-length" := "1"; "content-type" := "application/json" ]}
      (Sample.ascii_bytes "5") in
  let options :=
    {| o_headers := None; default_response_content_type := None;
       memory_allocation := Some {| multipart_form_data := None; ma_other := ∅ |};
       o_other := ∅ |} in
  hasBody request = Fulfilled true /\
  (parseBody_call Sample.runtime request (Some options)).1
  = Returns {| content_type := Some "application/json"; data := Some (JNum 5) |} /\
  JSON_parse Sample.runtime (decode Sample.runtime (Sample.ascii_bytes "5"))
  = Returns (JNum 5).
Proof.
  intros request options.
  pose (s := {| st_request := request; st_options := options |}).
  assert (Hbody : hasBody (st_request s) = Fulfilled true)
    by (vm_compute; reflexivity).
  assert (Hrun : exists s', parseBody Sample.runtime s
            = (Returns {| content_type := Some "application/json";
                          data := Some (JNum 5) |}, s')).
  { vm_compute. eauto. }
  destruct Hrun as [s' Hrun].
  destruct (parseBody_data_of_request_with_body Sample.runtime _ s s' Hbody Hrun)
    as [_ Hdata].
  destruct (Hdata (JNum 5) eq_refl) as (d & Hlast & Hd).
  assert (Hjson : d = Json).
  { vm_compute in Hlast. now injection Hlast as <-. }
  subst d. split; [exact Hbody|]. split.
  - unfold parseBody_call. fold s. now rewrite Hrun.
  - exact Hd.
Defined.

(** ** What [parseBody] changes *)

Lemma with_body_same (r : Request) : r = with_body (body r) r.
Proof. now destruct r. Qed.

Lemma frames_ret {A : Type} (a : A) : frames (ret a).
Proof. intros s. split; [reflexivity|]. exists (body (st_request s)). apply with_body_same. Qed.

Lemma frames_throw {A : Type} (e : Error) : frames (@throw A e).
Proof. intros s. split; [reflexivity|]. exists (body (st_request s)). apply with_body_same. Qed.

Lemma frames_bind {A B : Type} (m : M A) (k : A -> M B) :
  frames m -> (forall a, frames (k a)) -> frames (bind m k).
Proof.
  intros Hm Hk s. unfold bind. specialize (Hm s).
  destruct (m s) as [[a|e] s1]; simpl in Hm; [|exact Hm].
  destruct Hm as [Ho [b Hb]]. destruct (Hk a s1) as [Ho' [b' Hb']].
  split; [congruence|]. exists b'. rewrite Hb', Hb. reflexivity.
Qed.

Lemma frames_try_catch {A : Type} (m : M A) (h : Error -> M A) :
  frames m -> (forall e, frames (h e)) -> frames (try_catch m h).
Proof.
  intros Hm Hh s. unfold try_catch. specialize (Hm s).
  destruct (m s) as [[a|e] s1]; simpl in Hm; [exact Hm|].
  destruct Hm as [Ho [b Hb]]. destruct (Hh e s1) as [Ho' [b' Hb']].
  split; [congruence|]. exists b'. rewrite Hb', Hb. reflexivity.
Qed.

Lemma frames_decode_with (rt : Runtime) (contentType : option string)
    (d : Decoder) : frames (decode_with rt contentType d).
Proof.
  intros s. split; [apply decode_with_options|].
  destruct d; unfold decode_with; run_monad.
  - destruct (contentType ≫= match_boundary) as [boundary|];
      [|eexists; apply with_body_same].
    destruct (memory_allocation (st_options s)) as [current|];
      [|eexists; apply with_body_same].
    pose proof (parseBodyAsMultipartFormData_store rt boundary
                  (multipart_form_data current) s) as Hs.
    destruct (parseBodyAsMultipartFormData rt boundary _ s) as [[parsed|e] s1];
      simpl in *; subst s1; eexists; reflexivity.
  - eexists; reflexivity.
  - pose proof (parseBodyAsFormUrlEncoded_store rt s) as Hs.
    destruct (parseBodyAsFormUrlEncoded rt s) as [[parsed|e] s1];
      simpl in *; subst s1; eexists; reflexivity.
Qed.

Lemma frames_attempt (rt : Runtime) (contentType : option string)
    (d : Decoder) (current : ParsedBody) :
  frames (attempt rt contentType d current).
Proof.
  unfold attempt. destruct (declares contentType (token d)); [|apply frames_ret].
  apply frames_try_catch; [|intros e; apply frames_throw].
  apply frames_bind; [apply frames_decode_with | intros v; apply frames_ret].
Qed.

Lemma frames_fallback (rt : Runtime) (contentType : option string)
    (current : ParsedBody) : frames (fallback rt contentType current).
Proof.
  unfold fallback. destruct (negb (truthy_str contentType)); [|apply frames_ret].
  apply frames_try_catch; [|intros e; apply frames_throw].
  apply frames_bind; [apply frames_decode_with | intros v; apply frames_ret].
Qed.

Lemma frames_branches (rt : Runtime) (contentType : option string) :
  frames (branches rt contentType).
Proof.
  unfold branches.
  apply frames_bind; [apply frames_fallback | intros r0].
  apply frames_bind; [apply frames_attempt | intros r1].
  apply frames_bind; [apply frames_attempt | intros r2].
  apply frames_bind; [apply frames_attempt | intros r3].
  apply frames_ret.
Qed.

(** [parseBody] on an options object without a memory allocation stops
    with a [TypeError] and has changed nothing. *)
Lemma parseBody_without_memory_allocation (rt : Runtime) (s : Store) :
  memory_allocation (st_options s) = None ->
  parseBody rt s
  = (Throws (TypeError "Cannot read property 'multipart_form_data' of undefined"),
     s).
Proof.
  intros Hma. unfold parseBody. run_monad. cbn [truthy_promise negb].
  now rewrite Hma.
Qed.

(** What [parseBody] does to the store, whether it returns or throws. *)
Lemma parseBody_store (rt : Runtime) (s : Store) :
  (st_options (parseBody rt s).2
   = match memory_allocation (st_options s) with
     | Some allocation =>
         with_memory_allocation (normalized allocation) (st_options s)
     | None => st_options s
     end) /\
  exists b, st_request (parseBody rt s).2 = with_body b (st_request s).
Proof.
  destruct (memory_allocation (st_options s)) as [allocation|] eqn:Hma.
  - rewrite (parseBody_branches rt s allocation Hma).
    destruct (frames_branches rt
                (Headers.get (headers (st_request s)) "Content-Type")
                {| st_request := st_request s;
                   st_options := with_memory_allocation (normalized allocation)
                                   (st_options s) |}) as [Ho Hr].
    split; [exact Ho | exact Hr].
  - rewrite (parseBody_without_memory_allocation rt s Hma).
    split; [reflexivity|]. eexists; apply with_body_same.
Qed.

(** C8. On an options object with a memory allocation, [parseBody]
    leaves the allocation's [multipart_form_data] at 134217728 when it was
    missing or zero and at 1048576 times its value otherwise; the caller's
    object holds the new value when the call is over, whether it returned or
    threw, and nothing else of the object has changed. *)
Theorem parseBody_normalizes_memory_allocation (rt : Runtime)
    (request : Request) (options : Options) (allocation : MemoryAllocation) :
  memory_allocation options = Some allocation ->
  let after := st_options (parseBody_call rt request (Some options)).2 in
  (memory_allocation after ≫= multipart_form_data
   = Some (match multipart_form_data allocation with
           | Some megabytes =>
               if megabytes =? 0 then 134217728 else megabytes * 1048576
           | None => 134217728
           end)) /\
  (ma_other <$> memory_allocation after) = Some (ma_other allocation) /\
  o_headers after = o_headers options /\
  default_response_content_type after = default_response_content_type options /\
  o_other after = o_other options.
Proof.
  intros Hma after. subst after. unfold parseBody_call.
  destruct (parseBody_store rt {| st_request := request; st_options := options |})
    as [Ho _].
  rewrite Ho. cbn [st_options]. rewrite Hma. repeat split.
Qed.

Lemma parseBody_normalizes_memory_allocation_example :
  let options (megabytes : option Z) :=
    {| o_headers := None; default_response_content_type := Some "text/html";
       memory_allocation :=
         Some {| multipart_form_data := megabytes; ma_other := ∅ |};
       o_other := ∅ |} in
  let request := incoming "/" {[ "content-length" := "3" ]} (Sample.ascii_bytes "a=1") in
  (memory_allocation
     (st_options (parseBody_call Sample.runtime request (Some (options (Some 2)))).2)
   ≫= multipart_form_data) = Some 2097152 /\
  (memory_allocation
     (st_options (parseBody_call Sample.runtime request (Some (options None))).2)
   ≫= multipart_form_data) = Some 134217728.
Proof.
  intros options request. split.
  - exact (proj1 (parseBody_normalizes_memory_allocation Sample.runtime request
                    (options (Some 2)) _ eq_refl)).
  - exact (proj1 (parseBody_normalizes_memory_allocation Sample.runtime request
                    (options None) _ eq_refl)).
Defined.

(** ** Hydration *)

Lemma setHeaders_fields (request : Request)
    (extra : option (list (string * string))) :
  headers (setHeaders request extra) = merged (headers request) extra /\
  url (setHeaders request extra) = url request /\
  parsed_body (setHeaders request extra) = parsed_body request /\
  body (setHeaders request extra) = body request.
Proof.
  destruct extra as [entries|]; [|now repeat split].
  unfold setHeaders, merged. revert request.
  induction entries as [|kv rest IH]; intros request; [now repeat split|].
  cbn [fold_left]. destruct (IH (with_headers (Headers.set (headers request) kv.1 kv.2) request))
    as (Hh & Hu & Hp & Hb).
  rewrite Hh, Hu, Hp, Hb. now repeat split.
Qed.

(** [hydrate] prepares the request, then parses the body; the accessors
    are attached only when the parse returns. *)
Lemma hydrate_unfold (rt : Runtime) (s : Store) :
  hydrate rt s
  = match parseBody rt {| st_request := prepared rt (st_request s) (st_options s);
                          st_options := st_options s |} with
    | (Returns pb, s') =>
        (Returns tt,
         {| st_request := with_bound_body pb (st_request s');
            st_options := st_options s' |})
    | (Throws e, s') => (Throws e, s')
    end.
Proof.
  unfold hydrate, prepared. run_monad.
  destruct (o_headers (st_options s)) as [entries|]; cbn [st_request st_options].
  - rewrite (getResponseContentType_negotiates _ (getUrlQueryParams rt
               (with_url_path (getUrlPath (setHeaders (st_request s) (Some entries)))
                  (setHeaders (st_request s) (Some entries))))) by reflexivity.
    cbn [st_request st_options].
    destruct (parseBody rt _) as [[pb|e] s']; reflexivity.
  - rewrite (getResponseContentType_negotiates _ (getUrlQueryParams rt
               (with_url_path (getUrlPath (st_request s)) (st_request s))))
      by reflexivity.
    cbn [st_request st_options].
    destruct (parseBody rt _) as [[pb|e] s']; reflexivity.
Qed.

Lemma prepared_fields (rt : Runtime) (request : Request) (options : Options) :
  response_content_type (prepared rt request options)
  = negotiate
      (Headers.get (merged (headers request) (o_headers options))
                   "Response-Content-Type")
      (getUrlQueryParams rt request !! "response_content_type")
      (pb ← parsed_body request; pb !! "response_content_type")
      (default_response_content_type options) /\
  parsed_body (prepared rt request options) = parsed_body request /\
  body (prepared rt request options) = body request.
Proof.
  unfold prepared.
  destruct (o_headers options) as [entries|] eqn:Hh.
  - destruct (setHeaders_fields request (Some entries)) as (H1 & H2 & H3 & H4).
    unfold getUrlQueryParams, getUrlQueryString. cbn -[setHeaders merged].
    rewrite H1, H2, H3, H4. now repeat split.
  - now repeat split.
Qed.




(** ** Body accessors *)

Lemma hydrate_call_returns (rt : Runtime) (request hydrated : Request)
    (options : Options) (options' : option Options) :
  hydrate_call rt request (Some options) = (Returns tt, hydrated, options') ->
  exists pb s',
    parseBody rt {| st_request := prepared rt request options;
                    st_options := options |} = (Returns pb, s') /\
    bound_body hydrated = Some pb.
Proof.
  unfold hydrate_call. rewrite hydrate_unfold. cbn [st_request st_options].
  destruct (parseBody rt _) as [[pb|e] s']; [|discriminate].
  intros [= <- _]. eauto.
Qed.

(** C4, as amended. When [data] of the parsed body is a value other than
    [null] and the name is neither an own property of it nor inherited
    from a built-in prototype, [getRequestBodyParam] returns [undefined];
    when [data] is [undefined] or [null] it throws a [TypeError]. The
    [getBodyParam] that [hydrate] attaches is [getRequestBodyParam] on the
    parsed body that [parseBody] returned. *)
Theorem getRequestBodyParam_absent_key (rt : Runtime) (parsedBody : ParsedBody)
    (input : string) :
  (forall v : JsVal,
     data parsedBody = Some v -> v <> JNull ->
     own_property v input = None -> inherits rt v input = false ->
     getRequestBodyParam rt parsedBody input = Returns Undefined) /\
  (data parsedBody = None \/ data parsedBody = Some JNull ->
   exists msg, getRequestBodyParam rt parsedBody input = Throws (TypeError msg)) /\
  (forall (request hydrated : Request) (options : Options)
          (options' : option Options),
     hydrate_call rt request (Some options) = (Returns tt, hydrated, options') ->
     exists pb s',
       parseBody rt {| st_request := prepared rt request options;
                       st_options := options |} = (Returns pb, s') /\
       getBodyParam rt hydrated input = getRequestBodyParam rt pb input).
Proof.
  unfold getRequestBodyParam, get_property. repeat split.
  - intros v -> Hnull Hown Hinh. rewrite Hown, Hinh.
    destruct v; try reflexivity. now contradiction Hnull.
  - intros [-> | ->]; eauto.
  - intros request hydrated options options' Hrun.
    apply hydrate_call_returns in Hrun as (pb & s' & Hparse & Hbound).
    exists pb, s'. split; [exact Hparse|].
    unfold getBodyParam. now rewrite Hbound.
Qed.

Lemma getRequestBodyParam_absent_key_example :
  getRequestBodyParam Sample.runtime
    {| content_type := Some "application/x-www-form-urlencoded";
       data := Some (JObj {[ "name" := JStr "drash" ]}) |} "age"
  = Returns Undefined /\
  getRequestBodyParam Sample.runtime
    {| content_type := Some "application/json"; data := Some JNull |} "age"
  = Throws (TypeError "Cannot read property of null").
Proof.
  split.
  - apply (proj1 (getRequestBodyParam_absent_key Sample.runtime _ "age")
             (JObj {[ "name" := JStr "drash" ]}));
      [reflexivity | discriminate | reflexivity | reflexivity].
  - destruct (proj1 (proj2 (getRequestBodyParam_absent_key Sample.runtime
               {| content_type := Some "application/json"; data := Some JNull |}
               "age")) (or_intror eq_refl)) as [msg Hmsg].
    reflexivity.
Defined.

(** C4, refuted as stated: with [data] undefined the accessor throws. The
    second request has a body of a content type that [parseBody] does not
    decode, so the accessor that [hydrate] attached throws as well. *)
Lemma getRequestBodyParam_throws_on_undefined_data :
  let request :=
    incoming "/" {[ "content-length" := "5"; "content-type" := "text/plain" ]}
      (Sample.ascii_bytes "hello") in
  let options :=
    {| o_headers := None; default_response_content_type := None;
       memory_allocation := Some {| multipart_form_data := None; ma_other := ∅ |};
       o_other := ∅ |} in
  getRequestBodyParam Sample.runtime {| content_type := None; data := None |} "name"
  = Throws (TypeError "Cannot read property of undefined") /\
  (hydrate_call Sample.runtime request (Some options)).1.1 = Returns tt /\
  getBodyParam Sample.runtime
    (hydrate_call Sample.runtime request (Some options)).1.2 "name"
  = Throws (TypeError "Cannot read property of undefined").
Proof. repeat split; vm_compute; reflexivity. Qed.

(** ** The test on [hasBody] *)

(** With no [Content-Type] value, [parseBody] reads the stream with the
    form decoder, whatever [hasBody] would answer. *)
Lemma parseBody_without_content_type (rt : Runtime) (s : Store)
    (allocation : MemoryAllocation) :
  memory_allocation (st_options s) = Some allocation ->
  truthy_str (Headers.get (headers (st_request s)) "Content-Type") = false ->
  log (parseBody rt s).2 = log s ++ [FormUrlEncoded] /\
  forall result, (parseBody rt s).1 = Returns result ->
    content_type result = Some "application/x-www-form-urlencoded" /\
    exists v, data result = Some v.
Proof.
  intros Hma Hct. rewrite (parseBody_branches rt s allocation Hma).
  unfold branches, fallback, attempt.
  rewrite !(declares_without_content_type _ _ Hct), Hct.
  unfold decode_with. run_monad. cbn [negb].
  set (s0 := {| st_request := st_request s;
                st_options := with_memory_allocation (normalized allocation)
                                (st_options s) |}).
  pose proof (parseBodyAsFormUrlEncoded_store rt s0) as Hs.
  destruct (parseBodyAsFormUrlEncoded rt s0) as [[parsed|e] s1];
    cbn [fst snd] in *; subst s1.
  - split; [reflexivity|]. intros result [= <-]. cbn. eauto.
  - split; [reflexivity|]. discriminate.
Qed.

(** C1, on the code: a request with no [Content-Length] header, for which
    [hasBody] answers [false], has its body stream read by [parseBody], and
    a parse that returns has set the content type and the data. *)
Theorem parseBody_reads_request_without_body (rt : Runtime) :
  let request := incoming "/" ∅ [] in
  let options :=
    {| o_headers := None; default_response_content_type := None;
       memory_allocation := Some {| multipart_form_data := None; ma_other := ∅ |};
       o_other := ∅ |} in
  let outcome := parseBody_call rt request (Some options) in
  hasBody request = Fulfilled false /\
  log outcome.2 = [FormUrlEncoded] /\
  forall result, outcome.1 = Returns result ->
    content_type result = Some "application/x-www-form-urlencoded" /\
    exists v, data result = Some v.
Proof.
  intros request options outcome. split; [reflexivity|].
  exact (parseBody_without_content_type rt
           {| st_request := request; st_options := options |} _ eq_refl eq_refl).
Qed.

Lemma parseBody_reads_request_without_body_example :
  (parseBody_call Sample.runtime (incoming "/" ∅ [])
     (Some {| o_headers := None; default_response_content_type := None;
              memory_allocation :=
                Some {| multipart_form_data := None; ma_other := ∅ |};
              o_other := ∅ |})).1
  = Returns {| content_type := Some "application/x-www-form-urlencoded";
               data := Some (JObj ∅) |}.
Proof. vm_compute. reflexivity. Qed.

(** ** Missing options *)

(** C10. [hydrate] called without options throws a [TypeError] and leaves
    the request as it was. [parseBody] called without options, or with an
    options object that has no memory allocation, throws a [TypeError] with
    the request, its body stream included, and the options unchanged; so
    does [hydrate] when it gets to parse the body, with the stream still
    unread. *)
Theorem missing_options_throw_TypeError (rt : Runtime) (request : Request) :
  (exists msg,
     hydrate_call rt request None = (Throws (TypeError msg), request, None)) /\
  (exists msg,
     parseBody_call rt request None
     = (Throws (TypeError msg),
        {| st_request := request; st_options := empty_options |})) /\
  (forall options : Options,
     memory_allocation options = None ->
     (exists msg,
        parseBody_call rt request (Some options)
        = (Throws (TypeError msg),
           {| st_request := request; st_options := options |})) /\
     (exists msg hydrated,
        hydrate_call rt request (Some options)
        = (Throws (TypeError msg), hydrated, Some options) /\
        body hydrated = body request)).
Proof.
  split; [|split].
  - unfold hydrate_call. eauto.
  - unfold parseBody_call.
    rewrite parseBody_without_memory_allocation by reflexivity. eauto.
  - intros options Hma. split.
    + unfold parseBody_call.
      rewrite parseBody_without_memory_allocation by exact Hma. eauto.
    + unfold hydrate_call. rewrite hydrate_unfold. cbn [st_request st_options].
      rewrite parseBody_without_memory_allocation by exact Hma.
      cbn [st_request st_options]. eexists _, _. split; [reflexivity|].
      apply prepared_fields.
Qed.

Lemma missing_options_throw_TypeError_example :
  let request :=
    incoming "/" {[ "content-length" := "3" ]} (Sample.ascii_bytes "a=1") in
  exists msg,
    parseBody_call Sample.runtime request (Some empty_options)
    = (Throws (TypeError msg),
       {| st_request := request; st_options := empty_options |}).
Proof.
  intros request.
  exact (proj1 (proj2 (proj2 (missing_options_throw_TypeError Sample.runtime request))
                 empty_options eq_refl)).
Defined.

(** * Further properties of the service *)

(** ** The path and the query string of a URL *)

(** The first piece of a split holds no separator, and the text is that
    piece alone or that piece, a separator and the text the other pieces
    come from. *)
Lemma split_decompose (c : ascii) (s : string) :
  exists (x : string) (l : list string),
    Str.split c s = x :: l /\ ~ Str.has c x /\
    ((l = [] /\ s = x) \/
     (exists q, s = x +:+ String c q /\ l = Str.split c q)).
Proof.
  induction s as [|a r IH]; simpl.
  - exists EmptyString, []. split; [reflexivity|]. split; [tauto|]. now left.
  - destruct (Ascii.eqb_spec a c) as [->|Hne].
    + exists EmptyString, (Str.split c r). split; [reflexivity|].
      split; [simpl; tauto|]. right. now exists r.
    + destruct IH as (x & l & -> & Hx & Hl).
      exists (String a x), l. split; [reflexivity|].
      split; [simpl; intros [Hac|Hin]; [contradiction | now apply Hx]|].
      destruct Hl as [[-> ->] | (q & -> & ->)]; [now left|].
      right. now exists q.
Qed.

Lemma append_empty (s : string) : s +:+ "" = s.
Proof.
  induction s as [|a r IH]; [reflexivity|].
  change (String a r +:+ "") with (String a (r +:+ "")). now rewrite IH.
Qed.

(** X1. The path of a URL is the longest beginning of the URL without a
    question mark: it holds none, and the URL is the path alone or the
    path with a question mark right after it. *)
Theorem getUrlPath_longest_prefix (request : Request) :
  ~ Str.has "?" (getUrlPath request) /\
  exists rest : string,
    url request = getUrlPath request +:+ rest /\
    (rest = "" \/ exists q, rest = String "?" q).
Proof.
  unfold getUrlPath.
  destruct (String.eqb_spec (url request) "/") as [Heq|Hne].
  - rewrite Heq. split; [simpl; intuition discriminate|].
    exists "". split; [reflexivity | now left].
  - destruct (Z.eqb_spec (Str.indexOf "?" (url request)) (-1)) as [He|He].
    + apply indexOf_absent in He. split; [exact He|].
      exists "". split; [|now left]. now rewrite append_empty.
    + destruct (split_decompose "?" (url request))
        as (x & l & Hs & Hx & Hl).
      rewrite Hs. split; [exact Hx|].
      destruct Hl as [[-> Hu] | (q & Hu & ->)].
      * exfalso. apply He, indexOf_absent. now rewrite Hu.
      * exists (String "?" q). split; [exact Hu | right; now exists q].
Qed.

Lemma getUrlPath_examples :
  getUrlPath (incoming "/" ∅ []) = "/" /\
  getUrlPath (incoming "/users/7" ∅ []) = "/users/7" /\
  getUrlPath (incoming "/users?id=7?sort=asc" ∅ []) = "/users" /\
  getUrlPath (incoming "?id=7" ∅ []) = "".
Proof. repeat split; reflexivity. Qed.

(** X2. A URL with a question mark is its path, the question mark, its
    query string and what is left: nothing, or a second question mark with
    more text, which neither [getUrlPath] nor [getUrlQueryString] hands
    out. *)
Theorem url_is_path_and_query (request : Request) :
  Str.has "?" (url request) ->
  exists q rest : string,
    getUrlQueryString request = Some q /\
    ~ Str.has "?" q /\
    url request = getUrlPath request +:+ "?" +:+ q +:+ rest /\
    (rest = "" \/ exists more, rest = String "?" more).
Proof.
  intros Hin.
  assert (Hidx : (Str.indexOf "?" (url request) =? -1) = false).
  { apply Z.eqb_neq. intros He. now apply indexOf_absent in He. }
  assert (Hroot : String.eqb (url request) "/" = false).
  { apply String.eqb_neq. intros Heq. rewrite Heq in Hin. simpl in Hin.
    intuition discriminate. }
  unfold getUrlQueryString, getUrlPath. rewrite Hidx, Hroot.
  destruct (split_decompose "?" (url request)) as (x & l & Hs & Hx & Hl).
  rewrite Hs. destruct Hl as [[-> Hu] | (tail & Hu & ->)].
  - exfalso. apply Hx. now rewrite <- Hu.
  - destruct (split_decompose "?" tail) as (q & l' & Hs' & Hq & Hl').
    rewrite Hs'. cbn [lookup list_lookup].
    destruct Hl' as [[-> Ht] | (more & Ht & ->)].
    + exists q, "". repeat split; [exact Hq | | now left].
      now rewrite Hu, Ht, append_empty.
    + exists q, (String "?" more). repeat split; [exact Hq | | right; now exists more].
      now rewrite Hu, Ht.
Qed.

Lemma url_is_path_and_query_example :
  exists q rest : string,
    getUrlQueryString (incoming "/users?id=7?sort=asc" ∅ []) = Some q /\
    ~ Str.has "?" q /\
    "/users?id=7?sort=asc"
    = getUrlPath (incoming "/users?id=7?sort=asc" ∅ []) +:+ "?" +:+ q +:+ rest /\
    (rest = "" \/ exists more, rest = String "?" more).
Proof.
  apply (url_is_path_and_query (incoming "/users?id=7?sort=asc" ∅ [])).
  simpl. do 6 right. now left.
Defined.

(** ** Merging headers *)

Lemma overriding_from (name : string) (entries : list (string * string))
    (init : option string) :
  fold_left
    (fun found kv =>
       if String.eqb (Str.toLowerCase kv.1) (Str.toLowerCase name)
       then Some kv.2 else found)
    entries init
  = match overriding name entries with
    | Some v => Some v
    | None => init
    end.
Proof.
  unfold overriding. revert init.
  induction entries as [|kv rest IH]; intros init; [reflexivity|].
  cbn [fold_left]. rewrite IH. symmetry. rewrite IH.
  destruct (fold_left _ rest None); [reflexivity|].
  now destruct (String.eqb _ _).
Qed.

Lemma overriding_cons (name : string) (kv : string * string)
    (rest : list (string * string)) :
  overriding name (kv :: rest)
  = match overriding name rest with
    | Some v => Some v
    | None =>
        if String.eqb (Str.toLowerCase kv.1) (Str.toLowerCase name)
        then Some kv.2 else None
    end.
Proof. unfold overriding at 1. cbn [fold_left]. apply overriding_from. Qed.

Lemma merged_get (h : gmap string string) (entries : list (string * string))
    (name : string) :
  Headers.get (merged h (Some entries)) name
  = match overriding name entries with
    | Some v => Some (Str.trim v)
    | None => Headers.get h name
    end.
Proof.
  unfold merged. revert h.
  induction entries as [|kv rest IH]; intros h; [reflexivity|].
  cbn [fold_left]. rewrite IH, overriding_cons.
  destruct (overriding name rest); [reflexivity|].
  unfold Headers.get, Headers.set.
  destruct (String.eqb_spec (Str.toLowerCase kv.1) (Str.toLowerCase name))
    as [Heq|Hne].
  - rewrite Heq. apply lookup_insert_eq.
  - now apply lookup_insert_ne.
Qed.

(** X3. When [Headers.set] accepts every entry of the headers given to
    [setHeaders], a header read afterwards under a legal name, in any
    spelling, is the trimmed value of the last entry of that name,
    whatever the case of the entry's name, and the request's own header
    when no entry has the name; the URL, the body stream and [parsed_body]
    are as before. *)
Theorem setHeaders_last_entry_wins (request : Request)
    (entries : list (string * string)) (name : string) :
  Headers.legal (Some entries) = true ->
  Headers.legal_name name = true ->
  getRequestHeaderParam (setHeaders request (Some entries)) name
  = match overriding name entries with
    | Some v => Some (Str.trim v)
    | None => getRequestHeaderParam request name
    end /\
  url (setHeaders request (Some entries)) = url request /\
  body (setHeaders request (Some entries)) = body request /\
  parsed_body (setHeaders request (Some entries)) = parsed_body request.
Proof.
  intros _ _.
  destruct (setHeaders_fields request (Some entries)) as (Hh & Hu & Hp & Hb).
  unfold getRequestHeaderParam. rewrite Hh, merged_get. now repeat split.
Qed.

Lemma setHeaders_last_entry_wins_example :
  let request :=
    incoming "/" {[ "content-type" := "text/plain"; "accept" := "*/*" ]} [] in
  let entries :=
    [("Content-Type", "application/json"); ("X-Id", " 1 ");
     ("content-TYPE", "text/html")] in
  getRequestHeaderParam (setHeaders request (Some entries)) "Content-Type"
  = Some "text/html" /\
  getRequestHeaderParam (setHeaders request (Some entries)) "x-id" = Some "1" /\
  getRequestHeaderParam (setHeaders request (Some entries)) "Accept"
  = Some "*/*".
Proof.
  intros request entries.
  pose proof (fun name legal =>
                proj1 (setHeaders_last_entry_wins request entries name
                         eq_refl legal))
    as Hread.
  rewrite (Hread "Content-Type" eq_refl), (Hread "x-id" eq_refl),
    (Hread "Accept" eq_refl).
  repeat split; vm_compute; reflexivity.
Defined.

Lemma setHeaders_examples :
  let request :=
    incoming "/" {[ "content-type" := "text/plain"; "accept" := "*/*" ]} [] in
  let merged_request :=
    setHeaders request
      (Some [("Content-Type", "application/json"); ("X-Id", "1");
             ("content-TYPE", "text/html")]) in
  getRequestHeaderParam merged_request "Content-Type" = Some "text/html" /\
  getRequestHeaderParam merged_request "x-id" = Some "1" /\
  getRequestHeaderParam merged_request "Accept" = Some "*/*" /\
  getRequestHeaderParam merged_request "Host" = None.
Proof. repeat split; vm_compute; reflexivity. Qed.

(** ** The form decoder *)

Lemma remove_all_absent (c : ascii) (s : string) :
  ~ Str.has c (Str.remove_all c s).
Proof.
  induction s as [|a r IH]; simpl; [tauto|].
  destruct (Ascii.eqb_spec a c) as [Heq|Hne]; [exact IH|].
  simpl. intros [Hac|Hin]; [contradiction | now apply IH].
Qed.

Lemma remove_all_keeps_absent (c d : ascii) (s : string) :
  ~ Str.has d s -> ~ Str.has d (Str.remove_all c s).
Proof.
  induction s as [|a r IH]; simpl; [tauto|].
  intros Hno. destruct (Ascii.eqb a c).
  - apply IH. intros Hin. apply Hno. now right.
  - simpl. intros [Had|Hin]; [apply Hno; now left|].
    revert Hin. apply IH. intros Hin. apply Hno. now right.
Qed.

Lemma form_decoder_text (rt : Runtime) (s : Store) :
  let text := decode rt (pending (body (st_request s))) in
  exists parsed_text : string,
    parseBodyAsFormUrlEncoded rt s
    = (parseQueryParamsString rt (Some parsed_text),
       after_read FormUrlEncoded [] s) /\
    ~ Str.has "?" parsed_text /\
    ~ Str.has dquote parsed_text /\
    (~ Str.has "?" text -> parsed_text = Str.remove_all dquote text) /\
    (forall pre q : string,
       ~ Str.has "?" pre -> ~ Str.has "?" q ->
       (text = pre +:+ "?" +:+ q \/
        exists more, text = pre +:+ "?" +:+ q +:+ "?" +:+ more) ->
       parsed_text = Str.remove_all dquote q).
Proof.
  intros text. unfold parseBodyAsFormUrlEncoded, readAll. run_monad.
  fold text. fold (after_read FormUrlEncoded [] s).
  destruct (Z.eqb_spec (Str.indexOf "?" text) (-1)) as [He|He]; cbn [negb].
  - apply indexOf_absent in He.
    exists (Str.remove_all dquote text). split; [reflexivity|].
    split; [now apply remove_all_keeps_absent|].
    split; [apply remove_all_absent|]. split; [reflexivity|].
    intros pre q _ _ Hform. exfalso. apply He.
    destruct Hform as [-> | [more ->]]; apply has_app; right; now left.
  - destruct (split_decompose "?" text) as (x & l & Hs & Hx & Hl).
    destruct Hl as [[-> Ht] | (tail & Ht & ->)].
    { exfalso. apply He, indexOf_absent. now rewrite Ht. }
    destruct (split_decompose "?" tail) as (y & l' & Hs' & Hy & Hl').
    rewrite Hs, Hs'. cbn [lookup list_lookup].
    exists (Str.remove_all dquote y). split; [reflexivity|].
    split; [now apply remove_all_keeps_absent|].
    split; [apply remove_all_absent|]. split.
    + intros Hno. exfalso. apply Hno. rewrite Ht. apply has_app. right. now left.
    + intros pre q Hpre Hq Hform. f_equal.
      assert (Hsplit : exists rest', Str.split "?" text = pre :: q :: rest').
      { destruct Hform as [-> | [more ->]].
        - change (pre +:+ "?" +:+ q) with (pre +:+ String "?" q).
          rewrite split_at_first_separator by assumption.
          rewrite split_without_separator by assumption. eauto.
        - change (pre +:+ "?" +:+ q +:+ "?" +:+ more)
            with (pre +:+ String "?" (q +:+ String "?" more)).
          rewrite !split_at_first_separator by assumption. eauto. }
      destruct Hsplit as [rest' Hsplit]. rewrite Hs, Hs' in Hsplit.
      now injection Hsplit.
Qed.

(** X4. [parseBodyAsFormUrlEncoded] reads the stream to its end and
    answers with what [parseQueryParamsString] makes of a text that holds
    neither a question mark nor a double quote. The text is the body
    without its double quotes when the body has no question mark;
    otherwise only what stands between the first question mark and the
    second one, or the end, is decoded, and the text before the first
    question mark is dropped. *)
Theorem parseBodyAsFormUrlEncoded_text (rt : Runtime) (s : Store) :
  let text := decode rt (pending (body (st_request s))) in
  exists parsed_text : string,
    parseBodyAsFormUrlEncoded rt s
    = (parseQueryParamsString rt (Some parsed_text),
       after_read FormUrlEncoded [] s) /\
    ~ Str.has "?" parsed_text /\
    ~ Str.has dquote parsed_text /\
    (~ Str.has "?" text -> parsed_text = Str.remove_all dquote text) /\
    (forall pre q : string,
       ~ Str.has "?" pre -> ~ Str.has "?" q ->
       (text = pre +:+ "?" +:+ q \/
        exists more, text = pre +:+ "?" +:+ q +:+ "?" +:+ more) ->
       parsed_text = Str.remove_all dquote q).
Proof. apply form_decoder_text. Qed.

Lemma parseBodyAsFormUrlEncoded_examples :
  let run (text : string) :=
    (map_to_list <$>
       match (parseBodyAsFormUrlEncoded Sample.runtime
                {| st_request := incoming "/" ∅ (Sample.ascii_bytes text);
                   st_options := empty_options |}).1 with
       | Returns parsed => Some parsed
       | Throws _ => None
       end) in
  run "a=1&b=2" = Some [("a", "1"); ("b", "2")] /\
  run "/form?a=1&b=2" = Some [("a", "1"); ("b", "2")] /\
  run "a=why?&b=2" = Some [("b", "2"); ("", "")] /\
  run "a=1?b=2?c=3" = Some [("b", "2")].
Proof. repeat split; vm_compute; reflexivity. Qed.

(** ** What a parse leaves of the stream *)

Lemma decode_with_exhausts (rt : Runtime) (contentType : option string)
    (d : Decoder) (s s' : Store) (v : JsVal) :
  decode_with rt contentType d s = (Returns v, s') ->
  d <> MultipartFormData ->
  s' = after_read d [] s.
Proof.
  destruct d; [intros _ Hm; now contradiction Hm | |];
    unfold decode_with; run_monad; intros Hrun _.
  - pose proof (parseBodyAsJson_store rt s) as Hs.
    destruct (parseBodyAsJson rt s) as [r s1]. simpl in Hs.
    now injection Hrun as _ <-.
  - pose proof (parseBodyAsFormUrlEncoded_store rt s) as Hs.
    destruct (parseBodyAsFormUrlEncoded rt s) as [[parsed|e] s1];
      [|discriminate].
    simpl in Hs. now injection Hrun as _ <-.
Qed.

Lemma parseBody_returns_stream (rt : Runtime) (result : ParsedBody)
    (s s' : Store) :
  parseBody rt s = (Returns result, s') ->
  let contentType := Headers.get (headers (st_request s)) "Content-Type" in
  (attempts contentType = [] ->
   body (st_request s') = body (st_request s) /\
   result = {| content_type := None; data := None |}) /\
  (forall d : Decoder,
     last (attempts contentType) = Some d -> d <> MultipartFormData ->
     pending (body (st_request s')) = []).
Proof.
  intros H contentType.
  apply parseBody_returns in H as (allocation & _ & H).
  apply branches_returns in H
    as (r0 & s1 & r1 & s2 & r2 & s3 & H0 & H1 & H2 & H3).
  fold contentType in H0, H1, H2, H3.
  apply fallback_returns in H0. apply attempt_returns in H1, H2, H3.
  unfold attempts, matching.
  destruct (truthy_str contentType) eqn:Hct.
  - destruct H0 as [-> ->].
    destruct (declares contentType (token MultipartFormData));
      [destruct H1 as (v1 & Hd1 & _ & ->) | destruct H1 as [-> ->]];
      (destruct (declares contentType (token Json));
       [destruct H2 as (v2 & Hd2 & _ & ->) | destruct H2 as [-> ->]]);
      (destruct (declares contentType (token FormUrlEncoded));
       [destruct H3 as (v3 & Hd3 & _ & ->) | destruct H3 as [-> ->]]);
      cbn [app last];
      (split; [try discriminate; intros _; now split|]);
      intros d [= <-] Hd; try (now contradiction Hd);
      match goal with
      | Hrun : decode_with _ _ ?d ?before = (Returns _, ?after)
        |- pending (body (st_request ?after)) = [] =>
          now rewrite (decode_with_exhausts _ _ _ _ _ _ Hrun Hd)
      end.
  - rewrite !(declares_without_content_type _ _ Hct) in *.
    destruct H1 as [-> ->], H2 as [-> ->], H3 as [-> ->].
    destruct H0 as (v0 & Hd0 & _ & ->). cbn [last].
    split; [discriminate|]. intros d [= <-] Hd.
    now rewrite (decode_with_exhausts _ _ _ _ _ _ Hd0 Hd).
Qed.

(** X5. When [parseBody] returns and the [Content-Type] value matched no
    branch, the body stream is as it was and both fields of the result are
    undefined. When the last decoder it ran is the JSON or the form
    decoder, nothing is left on the stream. *)
Theorem parseBody_stream_after_return (rt : Runtime) (result : ParsedBody)
    (s s' : Store) :
  parseBody rt s = (Returns result, s') ->
  let contentType := Headers.get (headers (st_request s)) "Content-Type" in
  (attempts contentType = [] ->
   body (st_request s') = body (st_request s) /\
   result = {| content_type := None; data := None |}) /\
  (forall d : Decoder,
     last (attempts contentType) = Some d -> d <> MultipartFormData ->
     pending (body (st_request s')) = []).
Proof. apply parseBody_returns_stream. Qed.

Lemma parseBody_stream_after_return_example :
  let options :=
    {| o_headers := None; default_response_content_type := None;
       memory_allocation := Some {| multipart_form_data := None; ma_other := ∅ |};
       o_other := ∅ |} in
  let plain :=
    incoming "/" {[ "content-length" := "5"; "content-type" := "text/plain" ]}
      (Sample.ascii_bytes "hello") in
  let form :=
    incoming "/" {[ "content-length" := "3";
                    "content-type" := "application/x-www-form-urlencoded" ]}
      (Sample.ascii_bytes "a=1") in
  body (st_request (parseBody_call Sample.runtime plain (Some options)).2)
  = body plain /\
  pending (body (st_request (parseBody_call Sample.runtime form (Some options)).2))
  = [].
Proof.
  intros options plain form. split.
  - assert (Hrun : exists result s',
              parseBody_call Sample.runtime plain (Some options)
              = (Returns result, s')) by (vm_compute; eauto).
    destruct Hrun as (result & s' & Hrun). rewrite Hrun.
    apply (proj1 (parseBody_stream_after_return Sample.runtime result _ s' Hrun)).
    reflexivity.
  - assert (Hrun : exists result s',
              parseBody_call Sample.runtime form (Some options)
              = (Returns result, s')) by (vm_compute; eauto).
    destruct Hrun as (result & s' & Hrun). rewrite Hrun.
    apply (proj2 (parseBody_stream_after_return Sample.runtime result _ s' Hrun)
             FormUrlEncoded); [reflexivity | discriminate].
Defined.

(** ** Parsing twice with the same options *)

Lemma normalized_twice (allocation : MemoryAllocation) :
  multipart_form_data (normalized (normalized allocation))
  = Some (match multipart_form_data allocation with
          | Some megabytes =>
              if megabytes =? 0 then 134217728 * 1048576
              else megabytes * 1048576 * 1048576
          | None => 134217728 * 1048576
          end).
Proof.
  unfold normalized. cbn [multipart_form_data].
  destruct (multipart_form_data allocation) as [mb|]; [|reflexivity].
  destruct (Z.eqb_spec mb 0) as [->|Hne]; [reflexivity|].
  destruct (Z.eqb_spec (mb * 1048576) 0) as [Hz|_]; [lia | reflexivity].
Qed.

(** X6. The normalisation is applied anew by every call: after two calls
    of [parseBody] with the same options object, on any two requests, a
    [multipart_form_data] of [n] megabytes stands at [n] times 1048576
    times 1048576, and a missing or zero one at 134217728 times 1048576. *)
Theorem parseBody_twice_scales_twice (rt : Runtime) (request1 request2 : Request)
    (options : Options) (allocation : MemoryAllocation) :
  memory_allocation options = Some allocation ->
  let once := st_options (parseBody_call rt request1 (Some options)).2 in
  let twice := st_options (parseBody_call rt request2 (Some once)).2 in
  memory_allocation twice ≫= multipart_form_data
  = Some (match multipart_form_data allocation with
          | Some megabytes =>
              if megabytes =? 0 then 134217728 * 1048576
              else megabytes * 1048576 * 1048576
          | None => 134217728 * 1048576
          end).
Proof.
  intros Hma once twice. subst twice once. unfold parseBody_call.
  destruct (parseBody_store rt {| st_request := request1; st_options := options |})
    as [Ho1 _].
  cbn [st_options] in Ho1. rewrite Hma in Ho1.
  destruct (parseBody_store rt
              {| st_request := request2;
                 st_options := st_options (parseBody rt
                   {| st_request := request1; st_options := options |}).2 |})
    as [Ho2 _].
  cbn [st_options] in Ho2. rewrite Ho2, Ho1. cbn [memory_allocation with_memory_allocation].
  cbn [mbind option_bind]. apply normalized_twice.
Qed.

Lemma parseBody_twice_scales_twice_example :
  let options :=
    {| o_headers := None; default_response_content_type := None;
       memory_allocation := Some {| multipart_form_data := Some 2; ma_other := ∅ |};
       o_other := ∅ |} in
  let request := incoming "/" {[ "content-length" := "3" ]} (Sample.ascii_bytes "a=1") in
  let once := st_options (parseBody_call Sample.runtime request (Some options)).2 in
  memory_allocation
    (st_options (parseBody_call Sample.runtime request (Some once)).2)
  ≫= multipart_form_data
  = Some 2199023255552.
Proof.
  intros options request once.
  exact (parseBody_twice_scales_twice Sample.runtime request request options _ eq_refl).
Defined.

(** ** The errors of a parse *)

Lemma bind_throws {A B : Type} (m : M A) (k : A -> M B) (s s' : Store)
    (e : Error) :
  bind m k s = (Throws e, s') ->
  m s = (Throws e, s') \/
  exists a s1, m s = (Returns a, s1) /\ k a s1 = (Throws e, s').
Proof.
  unfold bind. destruct (m s) as [[a|e0] s1]; [eauto | intros [= <- <-]; auto].
Qed.

Lemma attempt_throws (rt : Runtime) (contentType : option string)
    (d : Decoder) (current : ParsedBody) (s s' : Store) (e : Error) :
  attempt rt contentType d current s = (Throws e, s') ->
  declares contentType (token d) = true /\
  exists cause,
    decode_with rt contentType d s = (Throws cause, s') /\
    e = WrappedError (branch_error d) cause.
Proof.
  unfold attempt. destruct (declares contentType (token d));
    run_monad; [|discriminate].
  destruct (decode_with rt contentType d s) as [[v|cause] s1]; [discriminate|].
  intros [= <- <-]. eauto.
Qed.

Lemma fallback_throws (rt : Runtime) (contentType : option string)
    (current : ParsedBody) (s s' : Store) (e : Error) :
  fallback rt contentType current s = (Throws e, s') ->
  truthy_str contentType = false /\
  exists cause,
    decode_with rt contentType FormUrlEncoded s = (Throws cause, s') /\
    e = WrappedError no_content_type_error cause.
Proof.
  unfold fallback. destruct (truthy_str contentType); cbn [negb];
    run_monad; [discriminate|].
  destruct (decode_with rt contentType FormUrlEncoded s) as [[v|cause] s1];
    [discriminate|].
  intros [= <- <-]. eauto.
Qed.

Lemma declares_truthy (contentType : option string) (t : string) :
  declares contentType t = true -> truthy_str contentType = true.
Proof. unfold declares. now destruct (truthy_str contentType). Qed.

Lemma declares_in_attempts (contentType : option string) (d : Decoder) :
  declares contentType (token d) = true -> In d (attempts contentType).
Proof.
  intros Hd. unfold attempts, matching. rewrite (declares_truthy _ _ Hd).
  destruct d; rewrite Hd; rewrite ?in_app_iff; simpl; auto.
Qed.

(** X7. [parseBody] throws in two ways only. With no memory allocation
    in the options it throws a [TypeError] and has changed nothing.
    Otherwise one of the decoders it runs for the [Content-Type] value
    threw, and the error is that decoder's error behind the message of its
    branch, or behind the message of the default when the request has no
    [Content-Type] value. *)
Theorem parseBody_errors (rt : Runtime) (s s' : Store) (e : Error) :
  parseBody rt s = (Throws e, s') ->
  let contentType := Headers.get (headers (st_request s)) "Content-Type" in
  (memory_allocation (st_options s) = None /\ s' = s /\
   exists msg, e = TypeError msg) \/
  (exists (d : Decoder) (cause : Error) (before : Store),
     In d (attempts contentType) /\
     decode_with rt contentType d before = (Throws cause, s') /\
     e = WrappedError (error_prefix contentType d) cause).
Proof.
  intros H contentType.
  destruct (memory_allocation (st_options s)) as [allocation|] eqn:Hma.
  - right. rewrite (parseBody_branches rt s allocation Hma) in H.
    fold contentType in H. unfold branches in H.
    apply bind_throws in H as [H | (r0 & s1 & H0 & H)].
    { apply fallback_throws in H as (Hct & cause & Hd & ->).
      eexists FormUrlEncoded, cause, _. split; [|split; [exact Hd|]].
      - unfold attempts. rewrite Hct. now left.
      - unfold error_prefix. now rewrite Hct. }
    assert (Hbranch : forall d current before,
              attempt rt contentType d current before = (Throws e, s') ->
              exists d cause before,
                In d (attempts contentType) /\
                decode_with rt contentType d before = (Throws cause, s') /\
                e = WrappedError (error_prefix contentType d) cause).
    { intros d current before Ha.
      apply attempt_throws in Ha as (Hdecl & cause & Hd & ->).
      exists d, cause, before. split; [now apply declares_in_attempts|].
      split; [exact Hd|]. unfold error_prefix.
      now rewrite (declares_truthy _ _ Hdecl). }
    apply bind_throws in H as [H | (r1 & s2 & H1 & H)]; [eapply Hbranch; eassumption|].
    apply bind_throws in H as [H | (r2 & s3 & H2 & H)]; [eapply Hbranch; eassumption|].
    apply bind_throws in H as [H | (r3 & s4 & H3 & H)]; [eapply Hbranch; eassumption|].
    discriminate.
  - left. rewrite (parseBody_without_memory_allocation rt s Hma) in H.
    injection H as <- <-. eauto.
Qed.

Lemma parseBody_errors_example :
  let request :=
    incoming "/" {[ "content-length" := "6"; "content-type" := "application/json" ]}
      (Sample.ascii_bytes "{oops}") in
  let options :=
    {| o_headers := None; default_response_content_type := None;
       memory_allocation := Some {| multipart_form_data := None; ma_other := ∅ |};
       o_other := ∅ |} in
  exists cause,
    (parseBody_call Sample.runtime request (Some options)).1
    = Throws (WrappedError "Error reading request body as application/json." cause).
Proof.
  intros request options.
  assert (Hrun : exists e s',
            parseBody_call Sample.runtime request (Some options) = (Throws e, s'))
    by (vm_compute; eauto).
  destruct Hrun as (e & s' & Hrun). rewrite Hrun.
  destruct (parseBody_errors Sample.runtime _ s' e Hrun)
    as [(Hma & _) | (d & cause & before & Hin & _ & ->)]; [discriminate Hma|].
  exists cause. cbn [fst]. f_equal. f_equal.
  destruct Hin as [<- | []]. reflexivity.
Defined.

(** X8. A [Content-Type] value that names [multipart/form-data] and has
    no [boundary=] with a token after it makes [parseBody] throw the
    [TypeError] of reading [[1]] of the failed match, behind the message of
    the multipart branch; the options are normalised by then, and the body
    stream has not been read. *)
Theorem parseBody_multipart_without_boundary (rt : Runtime) (s : Store)
    (allocation : MemoryAllocation) :
  memory_allocation (st_options s) = Some allocation ->
  let contentType := Headers.get (headers (st_request s)) "Content-Type" in
  declares contentType "multipart/form-data" = true ->
  contentType ≫= match_boundary = None ->
  parseBody rt s
  = (Throws (WrappedError "Error reading request body as multipart/form-data."
               (TypeError "Cannot read property '1' of null")),
     {| st_request := st_request s;
        st_options :=
          with_memory_allocation (normalized allocation) (st_options s) |}).
Proof.
  intros Hma contentType Hdecl Hnone.
  rewrite (parseBody_branches rt s allocation Hma). fold contentType.
  unfold branches, fallback, attempt.
  rewrite (declares_truthy _ _ Hdecl). cbn [negb token]. rewrite Hdecl.
  unfold decode_with. run_monad. now rewrite Hnone.
Qed.

Lemma parseBody_multipart_without_boundary_example :
  let request :=
    incoming "/upload"
      {[ "content-length" := "9"; "content-type" := "multipart/form-data; boundary=" ]}
      (Sample.ascii_bytes "--x--rest") in
  let options :=
    {| o_headers := None; default_response_content_type := None;
       memory_allocation := Some {| multipart_form_data := Some 1; ma_other := ∅ |};
       o_other := ∅ |} in
  let outcome := parseBody_call Sample.runtime request (Some options) in
  outcome.1
  = Throws (WrappedError "Error reading request body as multipart/form-data."
              (TypeError "Cannot read property '1' of null")) /\
  body (st_request outcome.2) = body request.
Proof.
  intros request options outcome. subst outcome. unfold parseBody_call.
  rewrite (parseBody_multipart_without_boundary Sample.runtime
             {| st_request := request; st_options := options |} _ eq_refl);
    [split; reflexivity | reflexivity | reflexivity].
Defined.

(** ** The boundary of a multipart body *)

Lemma prefix_split (p s : string) :
  String.prefix p s = true -> s = p +:+ string_drop (String.length p) s.
Proof.
  revert s. induction p as [|a p IH]; intros s; [reflexivity|].
  destruct s as [|b s]; [discriminate|]. simpl.
  destruct (ascii_dec a b) as [->|]; [|discriminate].
  intros Hp. change (String b p +:+ string_drop (String.length p) s)
    with (String b (p +:+ string_drop (String.length p) s)).
  now rewrite <- IH.
Qed.

Lemma prefix_append (p t : string) : String.prefix p (p +:+ t) = true.
Proof.
  induction p as [|a p IH]; [now destruct t|].
  change (String a p +:+ t) with (String a (p +:+ t)). simpl.
  now destruct (ascii_dec a a).
Qed.

Lemma string_drop_append (p t : string) :
  string_drop (String.length p) (p +:+ t) = t.
Proof.
  induction p as [|a p IH]; [now destruct t|].
  change (String a p +:+ t) with (String a (p +:+ t)). exact IH.
Qed.

Lemma non_space_run_split (s : string) :
  (forall a, Str.has a (Str.non_space_run s) -> Str.is_space a = false) /\
  exists post,
    s = Str.non_space_run s +:+ post /\
    (post = "" \/ exists a r, post = String a r /\ Str.is_space a = true).
Proof.
  induction s as [|a r [IHrun (post & IHs & IHpost)]]; simpl.
  - split; [tauto|]. exists "". split; [reflexivity | now left].
  - destruct (Str.is_space a) eqn:Ha.
    + split; [simpl; tauto|]. exists (String a r).
      split; [reflexivity | right; eauto].
    + split.
      * simpl. intros b [<- | Hin]; [exact Ha | now apply IHrun].
      * exists post.
        change (String a (Str.non_space_run r) +:+ post)
          with (String a (Str.non_space_run r +:+ post)).
        split; [now rewrite <- IHs | exact IHpost].
Qed.

Lemma match_boundary_unfold (s : string) :
  match_boundary s
  = match (if String.prefix "boundary=" s
           then match Str.non_space_run (string_drop 9 s) with
                | EmptyString => None
                | run => Some run
                end
           else None), s with
    | Some run, _ => Some run
    | None, String _ r => match_boundary r
    | None, EmptyString => None
    end.
Proof. destruct s; reflexivity. Qed.

(** X9. The boundary taken from a [Content-Type] value stands right
    after a [boundary=] of the value, is not empty, holds no white space
    and runs up to the next white space or the end of the value: a
    semicolon or a quote after the token is part of it. There is one
    whenever some [boundary=] of the value is followed by a character that
    is not white space. *)
Theorem match_boundary_token (s : string) :
  (forall b : string,
     match_boundary s = Some b ->
     b <> "" /\
     (forall a, Str.has a b -> Str.is_space a = false) /\
     exists pre post : string,
       s = pre +:+ "boundary=" +:+ b +:+ post /\
       (post = "" \/ exists a r, post = String a r /\ Str.is_space a = true)) /\
  (forall (pre : string) (a : ascii) (r : string),
     s = pre +:+ "boundary=" +:+ String a r -> Str.is_space a = false ->
     exists b, match_boundary s = Some b).
Proof.
  split.
  - induction s as [|c s IH]; intros b; rewrite match_boundary_unfold.
    + discriminate.
    + destruct (String.prefix "boundary=" (String c s)) eqn:Hp.
      * destruct (Str.non_space_run (string_drop 9 (String c s))) as [|x run]
          eqn:Hrun.
        -- intros Hrec. destruct (IH b Hrec) as (Hne & Hsp & pre & post & -> & Hpost).
           split; [exact Hne|]. split; [exact Hsp|].
           exists (String c pre), post. split; [reflexivity | exact Hpost].
        -- intros [= <-]. split; [discriminate|].
           destruct (non_space_run_split (string_drop 9 (String c s)))
             as (Hsp & post & Hs & Hpost).
           rewrite Hrun in Hsp, Hs. split; [exact Hsp|].
           exists "", post. split; [|exact Hpost].
           rewrite (prefix_split _ _ Hp) at 1.
           change (String.length "boundary=") with 9%nat. now rewrite Hs at 1.
      * intros Hrec. destruct (IH b Hrec) as (Hne & Hsp & pre & post & -> & Hpost).
        split; [exact Hne|]. split; [exact Hsp|].
        exists (String c pre), post. split; [reflexivity | exact Hpost].
  - intros pre a r -> Ha. induction pre as [|c pre IH].
    + rewrite match_boundary_unfold.
      change ("" +:+ "boundary=" +:+ String a r)
        with ("boundary=" +:+ String a r).
      rewrite prefix_append.
      change 9%nat with (String.length "boundary=").
      rewrite string_drop_append. simpl. rewrite Ha. eauto.
    + rewrite match_boundary_unfold.
      change (String c pre +:+ "boundary=" +:+ String a r)
        with (String c (pre +:+ "boundary=" +:+ String a r)).
      destruct IH as [b Hb].
      destruct (if String.prefix "boundary=" _ then _ else None) as [run|];
        [eauto | rewrite Hb; eauto].
Qed.

Lemma match_boundary_examples :
  match_boundary "multipart/form-data; boundary=----drash42" = Some "----drash42" /\
  match_boundary "multipart/form-data; boundary=abc; charset=utf-8" = Some "abc;" /\
  match_boundary "multipart/form-data; boundary= boundary=x y" = Some "x" /\
  match_boundary "multipart/form-data; Boundary=abc" = None /\
  match_boundary "multipart/form-data" = None.
Proof. repeat split; reflexivity. Qed.

(** ** What [hydrate] leaves on the request *)

Lemma getUrlPath_url (r r' : Request) :
  url r = url r' -> getUrlPath r = getUrlPath r'.
Proof. unfold getUrlPath. now intros ->. Qed.

Lemma getUrlQueryParams_url (rt : Runtime) (r r' : Request) :
  url r = url r' -> getUrlQueryParams rt r = getUrlQueryParams rt r'.
Proof. unfold getUrlQueryParams, getUrlQueryString. now intros ->. Qed.

Lemma prepared_attached (rt : Runtime) (request : Request) (options : Options) :
  url (prepared rt request options) = url request /\
  headers (prepared rt request options)
  = merged (headers request) (o_headers options) /\
  url_path (prepared rt request options) = Some (getUrlPath request) /\
  url_query_params (prepared rt request options)
  = Some (getUrlQueryParams rt request) /\
  bound_body (prepared rt request options) = bound_body request.
Proof.
  unfold prepared. destruct (o_headers options) as [entries|] eqn:Hh.
  - destruct (setHeaders_fields request (Some entries)) as (H1 & H2 & H3 & H4).
    cbn -[setHeaders merged getUrlPath getUrlQueryParams].
    rewrite H1, H2.
    rewrite (getUrlPath_url _ request H2).
    rewrite (getUrlQueryParams_url rt
               (with_url_path (getUrlPath request) (setHeaders request (Some entries)))
               request H2).
    repeat split.
    unfold setHeaders. clear. revert request.
    induction entries as [|kv rest IH]; intros request; [reflexivity|].
    cbn [fold_left]. now rewrite IH.
  - now repeat split.
Qed.

Lemma hydrate_outcome_fields (rt : Runtime) (request : Request)
    (options : Options) :
  url_query_params (hydrate_call rt request (Some options)).1.2
  = Some (getUrlQueryParams rt request).
Proof.
  unfold hydrate_call. rewrite hydrate_unfold. cbn [st_request st_options].
  destruct (parseBody_store rt
              {| st_request := prepared rt request options; st_options := options |})
    as [_ [b Hb]].
  destruct (prepared_attached rt request options) as (_ & _ & _ & Hq & _).
  destruct (parseBody rt _) as [[pb|e] s'] eqn:Hrun;
    cbn -[prepared] in Hb |- *; rewrite Hb; cbn -[prepared]; exact Hq.
Qed.

(** X10. With options whose headers, if any, [Headers.set] accepts one
    and all, [hydrate] fails exactly when [parseBody] fails, and with the
    same error. Whether it fails or not, the caller's request then has the
    merged headers, its path and its query parameters, and the caller's
    options are those [parseBody] left; the body accessors are bound, to
    the result of the parse, only when the parse returned. *)
Theorem hydrate_outcome (rt : Runtime) (request : Request) (options : Options) :
  Headers.legal (o_headers options) = true ->
  let parse :=
    parseBody rt {| st_request := prepared rt request options;
                    st_options := options |} in
  let run := hydrate_call rt request (Some options) in
  let hydrated := run.1.2 in
  url hydrated = url request /\
  headers hydrated = merged (headers request) (o_headers options) /\
  url_path hydrated = Some (getUrlPath request) /\
  url_query_params hydrated = Some (getUrlQueryParams rt request) /\
  body hydrated = body (st_request parse.2) /\
  run.2 = Some (st_options parse.2) /\
  match parse.1 with
  | Returns pb => run.1.1 = Returns tt /\ bound_body hydrated = Some pb
  | Throws e => run.1.1 = Throws e /\ bound_body hydrated = bound_body request
  end.
Proof.
  intros _ parse run hydrated. subst hydrated run parse.
  unfold hydrate_call. rewrite hydrate_unfold. cbn [st_request st_options].
  destruct (parseBody_store rt
              {| st_request := prepared rt request options; st_options := options |})
    as [_ [b Hb]].
  destruct (prepared_attached rt request options) as (Hu & Hh & Hp & Hq & Hbound).
  destruct (parseBody rt _) as [[pb|e] s'] eqn:Hrun;
    cbn -[prepared] in Hb |- *; rewrite Hb; cbn -[prepared];
    rewrite Hu, Hh, Hp, Hq; repeat split; assumption.
Qed.

Lemma hydrate_outcome_example :
  let options :=
    {| o_headers := Some [("Content-Type", " application/json ")];
       default_response_content_type := None;
       memory_allocation := Some {| multipart_form_data := None; ma_other := ∅ |};
       o_other := ∅ |} in
  let bad := incoming "/a?x=1" {[ "content-length" := "1" ]} (Sample.ascii_bytes "{") in
  let run := hydrate_call Sample.runtime bad (Some options) in
  run.1.1 = Throws (WrappedError "Error reading request body as application/json."
                      (SyntaxError "Unexpected token in JSON")) /\
  headers run.1.2
  = {[ "content-length" := "1"; "content-type" := "application/json" ]} /\
  url_path run.1.2 = Some "/a" /\
  url_query_params run.1.2 = Some {[ "x" := "1" ]} /\
  bound_body run.1.2 = None.
Proof.
  intros options bad run.
  destruct (hydrate_outcome Sample.runtime bad options eq_refl)
    as (_ & Hh & Hp & Hq & _ & _ & Hparse).
  fold run in Hh, Hp, Hq, Hparse.
  assert (Hthrown : (parseBody Sample.runtime
            {| st_request := prepared Sample.runtime bad options;
               st_options := options |}).1
          = Throws (WrappedError "Error reading request body as application/json."
                      (SyntaxError "Unexpected token in JSON")))
    by (vm_compute; reflexivity).
  rewrite Hthrown in Hparse. destruct Hparse as [Hout Hbound].
  rewrite Hout, Hh, Hp, Hq, Hbound.
  repeat split; vm_compute; reflexivity.
Defined.

Lemma hydrate_outcome_examples :
  let options :=
    {| o_headers := Some [("Content-Type", "application/json")];
       default_response_content_type := None;
       memory_allocation := Some {| multipart_form_data := None; ma_other := ∅ |};
       o_other := ∅ |} in
  let good := incoming "/a?x=1" {[ "content-length" := "1" ]} (Sample.ascii_bytes "7") in
  let bad := incoming "/a?x=1" {[ "content-length" := "1" ]} (Sample.ascii_bytes "{") in
  let ok := hydrate_call Sample.runtime good (Some options) in
  let ko := hydrate_call Sample.runtime bad (Some options) in
  ok.1.1 = Returns tt /\
  bound_body ok.1.2
  = Some {| content_type := Some "application/json"; data := Some (JNum 7) |} /\
  ko.1.1 = Throws (WrappedError "Error reading request body as application/json."
                     (SyntaxError "Unexpected token in JSON")) /\
  bound_body ko.1.2 = None /\
  url_path ko.1.2 = Some "/a" /\
  url_query_params ko.1.2 = Some {[ "x" := "1" ]}.
Proof. repeat split; vm_compute; reflexivity. Qed.

(** ** Query parameters *)

(** X11. Once [hydrate] has run with options whose headers, if any,
    [Headers.set] accepts one and all, a query parameter can be read
    whether the parse of the body failed or not: the read never throws,
    gives the parameter of the URL when there is one, and [undefined] for a
    name that is no parameter and that objects do not inherit. Before
    [hydrate] the read throws a [TypeError]. *)
Theorem getRequestQueryParam_after_hydrate (rt : Runtime) (request : Request)
    (options : Options) (input : string) :
  Headers.legal (o_headers options) = true ->
  let hydrated := (hydrate_call rt request (Some options)).1.2 in
  let query := getUrlQueryParams rt request in
  getRequestQueryParam rt hydrated input
  = Returns (match query !! input with
             | Some v => Own (JStr v)
             | None =>
                 if inherits rt (JObj (JStr <$> query)) input
                 then Inherited input else Undefined
             end) /\
  (url_query_params request = None ->
   exists msg, getRequestQueryParam rt request input = Throws (TypeError msg)).
Proof.
  intros _ hydrated query. split.
  - pose proof (hydrate_outcome_fields rt request options) as Hq.
    fold hydrated in Hq. unfold getRequestQueryParam. rewrite Hq.
    cbn [fmap option_fmap option_map get_property own_property].
    rewrite lookup_fmap. fold query. now destruct (query !! input).
  - intros Hnone. unfold getRequestQueryParam. rewrite Hnone. simpl. eauto.
Qed.

Lemma getRequestQueryParam_after_hydrate_example :
  let options :=
    {| o_headers := Some [("X-Trace", "on")];
       default_response_content_type := None;
       memory_allocation := None; o_other := ∅ |} in
  let request := incoming "/a?x=1&y=2" ∅ [] in
  let hydrated := (hydrate_call Sample.runtime request (Some options)).1.2 in
  getRequestQueryParam Sample.runtime hydrated "y" = Returns (Own (JStr "2")) /\
  getRequestQueryParam Sample.runtime hydrated "z" = Returns Undefined.
Proof.
  intros options request hydrated.
  pose proof (fun input =>
                proj1 (getRequestQueryParam_after_hydrate Sample.runtime request
                         options input eq_refl)) as Hread.
  fold hydrated in Hread. rewrite (Hread "y"), (Hread "z").
  split; vm_compute; reflexivity.
Defined.

Lemma getRequestQueryParam_examples :
  let options :=
    {| o_headers := None; default_response_content_type := None;
       memory_allocation := None; o_other := ∅ |} in
  let request := incoming "/a?x=1&y=2" ∅ [] in
  let hydrated := (hydrate_call Sample.runtime request (Some options)).1.2 in
  (hydrate_call Sample.runtime request (Some options)).1.1
  = Throws (TypeError "Cannot read property 'multipart_form_data' of undefined") /\
  getRequestQueryParam Sample.runtime hydrated "y" = Returns (Own (JStr "2")) /\
  getRequestQueryParam Sample.runtime hydrated "z" = Returns Undefined /\
  getRequestQueryParam Sample.runtime hydrated "toString"
  = Returns (Inherited "toString") /\
  getRequestQueryParam Sample.runtime request "y"
  = Throws (TypeError "Cannot read property of undefined").
Proof. repeat split; vm_compute; reflexivity. Qed.

(** ** Parsing a request a second time *)

Lemma attempts_json_only (contentType : option string) :
  attempts contentType = [Json] ->
  truthy_str contentType = true /\
  declares contentType "multipart/form-data" = false /\
  declares contentType "application/json" = true /\
  declares contentType "application/x-www-form-urlencoded" = false.
Proof.
  unfold attempts, matching. cbn [token].
  destruct (truthy_str contentType); [|discriminate].
  destruct (declares contentType "multipart/form-data"),
           (declares contentType "application/json"),
           (declares contentType "application/x-www-form-urlencoded");
    cbn [app]; intros [= ]; auto.
Qed.

(** X12. The body can be decoded once. When [parseBody] has returned for
    a request whose [Content-Type] value matches the JSON branch only, a
    second [parseBody] on the same request and options finds the stream
    empty: it gives what [JSON.parse] makes of the decoding of no bytes, and
    throws that error, behind the message of the JSON branch, when
    [JSON.parse] throws. *)
Theorem parseBody_again_decodes_nothing (rt : Runtime) (result : ParsedBody)
    (s s' : Store) :
  parseBody rt s = (Returns result, s') ->
  attempts (Headers.get (headers (st_request s)) "Content-Type") = [Json] ->
  (parseBody rt s').1
  = match JSON_parse rt (decode rt []) with
    | Returns v =>
        Returns {| content_type := Some "application/json"; data := Some v |}
    | Throws cause =>
        Throws (WrappedError "Error reading request body as application/json."
                  cause)
    end.
Proof.
  intros Hrun Hjson.
  destruct (parseBody_returns_stream rt result s s' Hrun) as [_ Hempty].
  specialize (Hempty Json). rewrite Hjson in Hempty.
  specialize (Hempty eq_refl ltac:(discriminate)).
  destruct (attempts_json_only _ Hjson) as (Hct & Hm & Hj & Hf).
  destruct (parseBody_store rt s) as [Ho [b Hb]].
  rewrite Hrun in Ho, Hb. cbn [snd] in Ho, Hb.
  destruct (parseBody_returns rt result s s' Hrun) as (allocation & Hma & _).
  rewrite Hma in Ho.
  assert (Hma' : memory_allocation (st_options s') = Some (normalized allocation))
    by now rewrite Ho.
  rewrite (parseBody_branches rt s' _ Hma').
  assert (Hheaders : headers (st_request s') = headers (st_request s))
    by now rewrite Hb.
  rewrite Hheaders. unfold branches, fallback, attempt.
  cbn [token]. rewrite Hct, Hm, Hj, Hf. cbn [negb].
  unfold decode_with, parseBodyAsJson, readAll. run_monad.
  cbn [st_request]. rewrite Hempty.
  now destruct (JSON_parse rt (decode rt [])).
Qed.

Lemma parseBody_again_decodes_nothing_example :
  let request :=
    incoming "/" {[ "content-length" := "1"; "content-type" := "application/json" ]}
      (Sample.ascii_bytes "5") in
  let options :=
    {| o_headers := None; default_response_content_type := None;
       memory_allocation := Some {| multipart_form_data := None; ma_other := ∅ |};
       o_other := ∅ |} in
  let first := parseBody_call Sample.runtime request (Some options) in
  first.1 = Returns {| content_type := Some "application/json";
                       data := Some (JNum 5) |} /\
  (parseBody Sample.runtime first.2).1
  = Throws (WrappedError "Error reading request body as application/json."
              (SyntaxError "Unexpected token in JSON")).
Proof.
  intros request options first.
  assert (Hrun : exists s', first
            = (Returns {| content_type := Some "application/json";
                          data := Some (JNum 5) |}, s'))
    by (vm_compute; eauto).
  destruct Hrun as [s' Hrun]. rewrite Hrun. cbn [fst snd].
  split; [reflexivity|].
  now rewrite (parseBody_again_decodes_nothing Sample.runtime _ _ s' Hrun eq_refl).
Defined.

Lemma match_boundary_token_example :
  (exists b, match_boundary "multipart/form-data; boundary=abc; charset=utf-8"
             = Some b) /\
  "abc;" <> "".
Proof.
  destruct (match_boundary_token
              "multipart/form-data; boundary=abc; charset=utf-8") as [Hsound Hsome].
  split.
  - apply (Hsome "multipart/form-data; " "a"%char "bc; charset=utf-8");
      reflexivity.
  - apply (Hsound "abc;"). reflexivity.
Defined.

(** ** The multipart branch and the default branch *)

Lemma attempts_multipart_only (contentType : option string) :
  attempts contentType = [MultipartFormData] ->
  truthy_str contentType = true /\
  declares contentType "multipart/form-data" = true /\
  declares contentType "application/json" = false /\
  declares contentType "application/x-www-form-urlencoded" = false.
Proof.
  unfold attempts, matching. cbn [token].
  destruct (truthy_str contentType); [|discriminate].
  destruct (declares contentType "multipart/form-data"),
           (declares contentType "application/json"),
           (declares contentType "application/x-www-form-urlencoded");
    cbn [app]; intros [= ]; auto.
Qed.

(** X13. For a [Content-Type] value that matches the multipart branch
    only and has a boundary, [parseBody] hands the multipart reader the
    bytes of the stream, that boundary and the normalised allocation: the
    number of bytes, never the number of megabytes of the options. It
    returns the form the reader returned as [data], throws the reader's
    error behind the message of the multipart branch, and leaves on the
    stream what the reader left. *)
Theorem parseBody_multipart (rt : Runtime) (s : Store)
    (allocation : MemoryAllocation) (boundary : string) :
  memory_allocation (st_options s) = Some allocation ->
  let contentType := Headers.get (headers (st_request s)) "Content-Type" in
  attempts contentType = [MultipartFormData] ->
  contentType ≫= match_boundary = Some boundary ->
  let read :=
    readForm rt (pending (body (st_request s))) boundary
      (Some (match multipart_form_data allocation with
             | Some megabytes =>
                 if megabytes =? 0 then 134217728 else megabytes * 1048576
             | None => 134217728
             end)) in
  let s0 := {| st_request := st_request s;
               st_options :=
                 with_memory_allocation (normalized allocation) (st_options s) |} in
  parseBody rt s
  = (match read.1 with
     | Returns form =>
         Returns {| content_type := Some "multipart/form-data";
                    data := Some (JObj form) |}
     | Throws cause =>
         Throws (WrappedError "Error reading request body as multipart/form-data."
                   cause)
     end,
     after_read MultipartFormData read.2 s0).
Proof.
  intros Hma contentType Honly Hboundary read s0.
  destruct (attempts_multipart_only _ Honly) as (Hct & Hm & Hj & Hf).
  rewrite (parseBody_branches rt s allocation Hma). fold contentType s0.
  unfold branches, fallback, attempt. cbn [token].
  rewrite Hct, Hm, Hj, Hf. cbn [negb].
  unfold decode_with, parseBodyAsMultipartFormData. run_monad.
  rewrite Hboundary. cbn [st_options s0 memory_allocation with_memory_allocation].
  cbn [st_request s0 normalized multipart_form_data]. fold read.
  destruct read as [[form|cause] rest]; reflexivity.
Qed.

Lemma parseBody_multipart_example :
  let request :=
    incoming "/upload"
      {[ "content-length" := "9";
         "content-type" := "multipart/form-data; boundary=x" ]}
      (Sample.ascii_bytes "--x--rest") in
  let options :=
    {| o_headers := None; default_response_content_type := None;
       memory_allocation := Some {| multipart_form_data := Some 3; ma_other := ∅ |};
       o_other := ∅ |} in
  (parseBody_call Sample.runtime request (Some options)).1
  = match (readForm Sample.runtime (Sample.ascii_bytes "--x--rest") "x"
             (Some 3145728)).1 with
    | Returns form =>
        Returns {| content_type := Some "multipart/form-data";
                   data := Some (JObj form) |}
    | Throws cause =>
        Throws (WrappedError "Error reading request body as multipart/form-data."
                  cause)
    end.
Proof.
  intros request options. unfold parseBody_call.
  now rewrite (parseBody_multipart Sample.runtime
                 {| st_request := request; st_options := options |} _ "x"
                 eq_refl eq_refl eq_refl).
Defined.

(** X14. A request with no [Content-Type] value is decoded as a form,
    whatever its [Content-Length] says: [parseBody] returns the content
    type [application/x-www-form-urlencoded] with the mapping
    [parseQueryParamsString] made of the body text without its double
    quotes (of the part after its first question mark when it has one),
    and throws that function's error behind the message of the default. *)
Theorem parseBody_without_content_type_decodes_form (rt : Runtime) (s : Store)
    (allocation : MemoryAllocation) :
  memory_allocation (st_options s) = Some allocation ->
  truthy_str (Headers.get (headers (st_request s)) "Content-Type") = false ->
  let text := decode rt (pending (body (st_request s))) in
  exists parsed_text : string,
    (~ Str.has "?" text -> parsed_text = Str.remove_all dquote text) /\
    (forall pre q : string,
       ~ Str.has "?" pre -> ~ Str.has "?" q -> text = pre +:+ "?" +:+ q ->
       parsed_text = Str.remove_all dquote q) /\
    (parseBody rt s).1
    = match parseQueryParamsString rt (Some parsed_text) with
      | Returns parsed =>
          Returns {| content_type := Some "application/x-www-form-urlencoded";
                     data := Some (JObj (JStr <$> parsed)) |}
      | Throws cause => Throws (WrappedError no_content_type_error cause)
      end.
Proof.
  intros Hma Hct text.
  set (s0 := {| st_request := st_request s;
                st_options := with_memory_allocation (normalized allocation)
                                (st_options s) |}).
  destruct (form_decoder_text rt s0)
    as (parsed_text & Hrun & _ & _ & Hplain & Hquery).
  exists parsed_text. split; [exact Hplain|]. split.
  { intros pre q Hpre Hq Htext. apply (Hquery pre q Hpre Hq). now left. }
  rewrite (parseBody_branches rt s allocation Hma). fold s0.
  unfold branches, fallback, attempt.
  rewrite !(declares_without_content_type _ _ Hct), Hct.
  unfold decode_with. run_monad. cbn [negb]. rewrite Hrun.
  now destruct (parseQueryParamsString rt (Some parsed_text)).
Qed.

Lemma parseBody_without_content_type_decodes_form_example :
  let request := incoming "/" {[ "content-length" := "7" ]} (Sample.ascii_bytes "foo=bar") in
  let options :=
    {| o_headers := None; default_response_content_type := None;
       memory_allocation := Some {| multipart_form_data := None; ma_other := ∅ |};
       o_other := ∅ |} in
  (parseBody_call Sample.runtime request (Some options)).1
  = Returns {| content_type := Some "application/x-www-form-urlencoded";
               data := Some (JObj {[ "foo" := JStr "bar" ]}) |}.
Proof.
  intros request options. unfold parseBody_call.
  destruct (parseBody_without_content_type_decodes_form Sample.runtime
              {| st_request := request; st_options := options |} _
              eq_refl eq_refl) as (parsed_text & Hplain & _ & ->).
  rewrite Hplain by (simpl; intuition discriminate).
  vm_compute. reflexivity.
Defined.

(** ** The negotiated content type *)

Lemma negotiate_truthy (header query : option string) (field : option JsVal)
    (defaultType : option string) :
  truthy (negotiate header query field defaultType) = true.
Proof.
  unfold negotiate.
  destruct (truthy field) eqn:Hf; [exact Hf|].
  destruct (truthy_str query) eqn:Hq; [now destruct query|].
  destruct (truthy_str header) eqn:Hh; [now destruct header|].
  destruct (truthy_str defaultType) eqn:Hd; [now destruct defaultType|].
  reflexivity.
Qed.

(** X15. On a request that carries its query parameters,
    [getResponseContentType] always returns a value that is neither
    undefined nor empty, whatever the header, the query parameter, the
    field of the parsed body and the default are. *)
Theorem getResponseContentType_never_empty (request : Request)
    (query : gmap string string) (defaultContentType : option string) :
  url_query_params request = Some query ->
  exists v : JsVal,
    getResponseContentType request defaultContentType = Returns (Some v) /\
    truthy (Some v) = true.
Proof.
  intros Hq. rewrite (getResponseContentType_negotiates request query _ Hq).
  pose proof (negotiate_truthy
                (Headers.get (headers request) "Response-Content-Type")
                (query !! "response_content_type")
                (pb ← parsed_body request; pb !! "response_content_type")
                defaultContentType) as Ht.
  destruct (negotiate _ _ _ _) as [v|]; [eauto | discriminate].
Qed.

Lemma getResponseContentType_never_empty_example :
  exists v : JsVal,
    getResponseContentType
      (with_url_query_params {[ "response_content_type" := "" ]}
         (incoming "/?response_content_type=" {[ "response-content-type" := "" ]} []))
      (Some "")
    = Returns (Some v) /\
    truthy (Some v) = true.
Proof.
  apply (getResponseContentType_never_empty _ {[ "response_content_type" := "" ]}).
  reflexivity.
Defined.

(** ** A decoder that throws ends the parse *)

Lemma decode_with_throws_log (rt : Runtime) (contentType : option string)
    (d : Decoder) (s s' : Store) (cause : Error) :
  decode_with rt contentType d s = (Throws cause, s') ->
  log s' = log s ++ [d] \/ (d = MultipartFormData /\ s' = s).
Proof.
  destruct d; unfold decode_with; run_monad.
  - destruct (contentType ≫= match_boundary) as [boundary|];
      [|intros [= _ <-]; now right].
    destruct (memory_allocation (st_options s)) as [current|];
      [|intros [= _ <-]; now right].
    pose proof (parseBodyAsMultipartFormData_store rt boundary
                  (multipart_form_data current) s) as Hs.
    destruct (parseBodyAsMultipartFormData rt boundary _ s) as [[parsed|e] s1];
      [discriminate|].
    simpl in Hs. intros [= _ <-]. left. now rewrite Hs.
  - pose proof (parseBodyAsJson_store rt s) as Hs.
    destruct (parseBodyAsJson rt s) as [r s1]. simpl in Hs.
    intros [= _ <-]. left. now rewrite Hs.
  - pose proof (parseBodyAsFormUrlEncoded_store rt s) as Hs.
    destruct (parseBodyAsFormUrlEncoded rt s) as [[parsed|e] s1];
      [discriminate|].
    simpl in Hs. intros [= _ <-]. left. now rewrite Hs.
Qed.

Lemma attempt_throws_log (rt : Runtime) (contentType : option string)
    (d : Decoder) (current : ParsedBody) (s s' : Store) (e : Error) :
  attempt rt contentType d current s = (Throws e, s') ->
  declares contentType (token d) = true /\
  (log s' = log s ++ [d] \/ (d = MultipartFormData /\ log s' = log s)) /\
  exists cause, e = WrappedError (error_prefix contentType d) cause.
Proof.
  intros H. apply attempt_throws in H as (Hdecl & cause & Hd & ->).
  split; [exact Hdecl|]. split.
  - apply decode_with_throws_log in Hd as [Hl | [-> ->]]; auto.
  - exists cause. unfold error_prefix. now rewrite (declares_truthy _ _ Hdecl).
Qed.

Lemma attempt_returns_log (rt : Runtime) (contentType : option string)
    (d : Decoder) (current result : ParsedBody) (s s' : Store) :
  attempt rt contentType d current s = (Returns result, s') ->
  log s' = log s ++ (if declares contentType (token d) then [d] else []).
Proof.
  intros H. apply attempt_returns in H.
  destruct (declares contentType (token d)).
  - now destruct H as (v & _ & Hl & _).
  - destruct H as [_ ->]. now rewrite app_nil_r.
Qed.

(** X16. When a decoder throws, [parseBody] throws at once: the decoders
    the [Content-Type] value asks for before it have run, it is the last
    one to have touched the stream, and those after it never run. The
    multipart decoder can throw before it reads, on a value without a
    boundary. *)
Theorem parseBody_stops_at_first_error (rt : Runtime) (s s' : Store)
    (e : Error) (allocation : MemoryAllocation) :
  memory_allocation (st_options s) = Some allocation ->
  parseBody rt s = (Throws e, s') ->
  let contentType := Headers.get (headers (st_request s)) "Content-Type" in
  exists (done : list Decoder) (d : Decoder) (later : list Decoder),
    attempts contentType = done ++ d :: later /\
    (log s' = log s ++ done ++ [d] \/
     (d = MultipartFormData /\ log s' = log s ++ done)) /\
    exists cause, e = WrappedError (error_prefix contentType d) cause.
Proof.
  intros Hma H contentType.
  rewrite (parseBody_branches rt s allocation Hma) in H.
  fold contentType in H. unfold branches in H.
  set (s0 := {| st_request := st_request s;
                st_options := with_memory_allocation (normalized allocation)
                                (st_options s) |}) in H.
  assert (Hlog0 : log s0 = log s) by reflexivity.
  apply bind_throws in H as [H | (r0 & s1 & H0 & H)].
  { apply fallback_throws in H as (Hct & cause & Hd & ->).
    exists [], FormUrlEncoded, []. unfold attempts, error_prefix. rewrite Hct.
    split; [reflexivity|]. split; [|eauto].
    apply decode_with_throws_log in Hd as [Hl | [[= ] _]]. left. now rewrite Hl. }
  apply bind_throws in H as [H | (r1 & s2 & H1 & H)].
  { apply attempt_throws_log in H as (Hdecl & Hl & Hcause).
    pose proof (declares_truthy _ _ Hdecl) as Hct.
    apply fallback_returns in H0. rewrite Hct in H0. destruct H0 as [_ ->].
    eexists [], MultipartFormData, _. unfold attempts, matching.
    rewrite Hct, Hdecl. split; [reflexivity|]. split; [|exact Hcause].
    rewrite Hlog0 in Hl. destruct Hl as [Hl | [_ Hl]];
      [left | right; split; [reflexivity|]]; now rewrite Hl, ?app_nil_r. }
  apply bind_throws in H as [H | (r2 & s3 & H2 & H)].
  { apply attempt_throws_log in H as (Hdecl & Hl & Hcause).
    pose proof (declares_truthy _ _ Hdecl) as Hct.
    apply fallback_returns in H0. rewrite Hct in H0. destruct H0 as [_ ->].
    apply attempt_returns_log in H1. rewrite Hlog0 in H1.
    eexists (if declares contentType (token MultipartFormData)
             then [MultipartFormData] else []), Json, _.
    unfold attempts, matching. rewrite Hct, Hdecl.
    split; [reflexivity|]. split; [|exact Hcause].
    destruct Hl as [Hl | [[= ] _]]. left. rewrite Hl, H1. now rewrite app_assoc. }
  apply bind_throws in H as [H | (r3 & s4 & H3 & H)]; [|discriminate].
  apply attempt_throws_log in H as (Hdecl & Hl & Hcause).
  pose proof (declares_truthy _ _ Hdecl) as Hct.
  apply fallback_returns in H0. rewrite Hct in H0. destruct H0 as [_ ->].
  apply attempt_returns_log in H1, H2. rewrite Hlog0 in H1.
  exists ((if declares contentType (token MultipartFormData)
           then [MultipartFormData] else [])
          ++ (if declares contentType (token Json) then [Json] else [])),
         FormUrlEncoded, [].
  unfold attempts, matching. rewrite Hct, Hdecl.
  split; [now rewrite <- app_assoc|]. split; [|exact Hcause].
  destruct Hl as [Hl | [[= ] _]]. left. rewrite Hl, H2, H1.
  now rewrite <- !app_assoc.
Qed.

Lemma parseBody_stops_at_first_error_example :
  let request :=
    incoming "/"
      {[ "content-length" := "1";
         "content-type" := "application/json, application/x-www-form-urlencoded" ]}
      (Sample.ascii_bytes "{") in
  let options :=
    {| o_headers := None; default_response_content_type := None;
       memory_allocation := Some {| multipart_form_data := None; ma_other := ∅ |};
       o_other := ∅ |} in
  let outcome := parseBody_call Sample.runtime request (Some options) in
  log outcome.2 = [Json] /\
  exists (done : list Decoder) (d : Decoder) (later : list Decoder),
    [Json; FormUrlEncoded] = done ++ d :: later /\
    (log outcome.2 = done ++ [d] \/
     (d = MultipartFormData /\ log outcome.2 = done)).
Proof.
  intros request options outcome.
  split; [vm_compute; reflexivity|].
  assert (Hrun : exists e s', outcome = (Throws e, s'))
    by (vm_compute; eauto).
  destruct Hrun as (e & s' & Hrun).
  destruct (parseBody_stops_at_first_error Sample.runtime
              {| st_request := request; st_options := options |} s' e _
              eq_refl Hrun) as (done & d & later & Hatt & Hlog & _).
  exists done, d, later. rewrite Hrun. split; [exact Hatt | exact Hlog].
Defined.
